(** * The light-peer-chain bridge of trinity

    A shallow embedding of
    [trinity/plugins/builtin/light_peer_chain_bridge/light_peer_chain_bridge.py]:
    the catalog of request and response events, the provider-side relay
    [LightPeerChainEventBusHandler] and the consumer-side facade
    [EventBusLightPeerChain].

    Python coroutines are functions in a state-and-exception monad over the
    history of calls made on the event bus endpoint.  An awaited call either
    returns, raises, or never resolves. *)

From Stdlib Require Import String List Bool Arith Lia Permutation.
From ExtLib Require Import Structures.Monad.
Import ListNotations.
Import MonadNotation.
Local Open Scope monad_scope.

Set Implicit Arguments.

(** ** Values of the host language *)

(** [bytes]; [Hash32] and [Address] are [NewType]s of [bytes] in [eth_typing]. *)
Definition bytes : Type := list Byte.byte.
Definition Hash32 : Type := bytes.
Definition Address : Type := bytes.

(** Exceptions.  [Failure] stands for any failure the chain-data provider
    defines; the other classes are raised by attribute access and by the
    correlation primitive of the bus. *)
Inductive Exception : Type :=
| Failure (info : string)
| AttributeError (attr : string)
| UnexpectedResponse.

(** What awaiting a coroutine gives: a value, a raised exception, or nothing,
    ever (the awaited future is never resolved). *)
Inductive Outcome (A : Type) : Type :=
| Returned (a : A)
| Raised (e : Exception)
| Pending.

Arguments Returned {A} a.
Arguments Raised {A} e.
Arguments Pending {A}.

Definition outcome_map {A B : Type} (f : A -> B) (o : Outcome A) : Outcome B :=
  match o with
  | Returned a => Returned (f a)
  | Raised e => Raised e
  | Pending => Pending
  end.

(** ** Coroutines

    A coroutine runs against the state [W] of its bus endpoint.  A raise or a
    suspension that never ends keeps the effects made so far. *)
Definition Coro (W A : Type) : Type := W -> Outcome A * W.

Definition coro_ret {W A : Type} (a : A) : Coro W A :=
  fun w => (Returned a, w).

Definition coro_bind {W A B : Type} (c : Coro W A) (k : A -> Coro W B) : Coro W B :=
  fun w =>
    match c w with
    | (Returned a, w') => k a w'
    | (Raised e, w') => (Raised e, w')
    | (Pending, w') => (Pending, w')
    end.

#[export] Instance Monad_Coro {W : Type} : Monad (Coro W) :=
  {| ret := @coro_ret W; bind := @coro_bind W |}.

(** [raise e] *)
Definition raise {W A : Type} (e : Exception) : Coro W A :=
  fun w => (Raised e, w).

(** [await awaitable], for an awaitable that does not touch the endpoint. *)
Definition await {W A : Type} (awaitable : Outcome A) : Coro W A :=
  fun w => (awaitable, w).

(** Modelled from the spec: [await_and_wrap_errors] of
    [trinity/_utils/async_errors.py], which is not among the sources.  "Any
    failure raised by the provider must be captured as data, not propagated":
    the result is the pair [(val, error)], with the value unset when the
    awaitable failed and the error unset when it returned. *)
Definition await_and_wrap_errors {W A : Type} (awaitable : Coro W A)
  : Coro W (option A * option Exception) :=
  fun w =>
    match awaitable w with
    | (Returned val, w') => (Returned (Some val, None), w')
    | (Raised e, w') => (Returned (None, Some e), w')
    | (Pending, w') => (Pending, w')
    end.

(** [async for event in events: body(event)] over the events that the stream
    delivers before the consumer is told to stop. *)
Fixpoint async_for {W A : Type} (events : list A) (body : A -> Coro W unit) : Coro W unit :=
  match events with
  | [] => ret tt
  | event :: rest => body event ;; async_for rest body
  end.

(** ** The catalog of request and response events *)

Section Catalog.

(** The chain data are opaque here: [BlockHeader], [BlockBody], [Receipt]
    and [Account] come from [eth.rlp] and [trinity.rlp]. *)
Variables BlockHeader BlockBody Receipt Account : Type.

(** The routing data that the bus attaches to an event it carries: where
    the event comes from and which pending call it belongs to. *)
Variable Token : Type.

(** A value that a response field or a facade call can hold, next to
    [None]. *)
Inductive PyObj : Type :=
| obj_BlockHeader (block_header : BlockHeader)
| obj_BlockBody (block_body : BlockBody)
| obj_Receipts (receipts : list Receipt)
| obj_Account (account : Account)
| obj_bytes (bytez : bytes).

(** [BroadcastConfig] of the bus: [None] filters nothing, [Some token]
    addresses what the token names. *)
Definition BroadcastConfig : Type := option Token.

(** The response classes, as class objects. *)
Inductive ResponseType : Type :=
| BlockHeaderResponse_cls
| BlockBodyResponse_cls
| ReceiptsResponse_cls
| AccountResponse_cls
| BytesResponse_cls.

(** The instances of the five response dataclasses.  The fields are not
    checked against their annotations: each holds any value or [None]. *)
Inductive Response : Type :=
| BlockHeaderResponse (block_header : option PyObj) (error : option Exception)
| BlockBodyResponse (block_body : option PyObj) (error : option Exception)
| ReceiptsResponse (receipts : option PyObj) (error : option Exception)
| AccountResponse (account : option PyObj) (error : option Exception)
| BytesResponse (bytez : option PyObj) (error : option Exception).

(** [cls(val, error)] *)
Definition call_cls (cls : ResponseType) (val : option PyObj) (error : option Exception)
  : Response :=
  match cls with
  | BlockHeaderResponse_cls => BlockHeaderResponse val error
  | BlockBodyResponse_cls => BlockBodyResponse val error
  | ReceiptsResponse_cls => ReceiptsResponse val error
  | AccountResponse_cls => AccountResponse val error
  | BytesResponse_cls => BytesResponse val error
  end.

(** [type(response)] *)
Definition response_type (response : Response) : ResponseType :=
  match response with
  | BlockHeaderResponse _ _ => BlockHeaderResponse_cls
  | BlockBodyResponse _ _ => BlockBodyResponse_cls
  | ReceiptsResponse _ _ => ReceiptsResponse_cls
  | AccountResponse _ _ => AccountResponse_cls
  | BytesResponse _ _ => BytesResponse_cls
  end.

(** [response.error], declared by [BaseLightPeerChainResponse]. *)
Definition error (response : Response) : option Exception :=
  match response with
  | BlockHeaderResponse _ e | BlockBodyResponse _ e | ReceiptsResponse _ e
  | AccountResponse _ e | BytesResponse _ e => e
  end.

(** The one data field of a response, whatever its name. *)
Definition payload (response : Response) : option PyObj :=
  match response with
  | BlockHeaderResponse v _ | BlockBodyResponse v _ | ReceiptsResponse v _
  | AccountResponse v _ | BytesResponse v _ => v
  end.

(** Attribute access: a class that lacks the field raises. *)
Definition block_header (response : Response) : Outcome (option PyObj) :=
  match response with
  | BlockHeaderResponse v _ => Returned v
  | _ => Raised (AttributeError "block_header"%string)
  end.

Definition block_body (response : Response) : Outcome (option PyObj) :=
  match response with
  | BlockBodyResponse v _ => Returned v
  | _ => Raised (AttributeError "block_body"%string)
  end.

Definition receipts (response : Response) : Outcome (option PyObj) :=
  match response with
  | ReceiptsResponse v _ => Returned v
  | _ => Raised (AttributeError "receipts"%string)
  end.

Definition account (response : Response) : Outcome (option PyObj) :=
  match response with
  | AccountResponse v _ => Returned v
  | _ => Raised (AttributeError "account"%string)
  end.

Definition bytez (response : Response) : Outcome (option PyObj) :=
  match response with
  | BytesResponse v _ => Returned v
  | _ => Raised (AttributeError "bytez"%string)
  end.

(** The request classes, as class objects. *)
Inductive RequestType : Type :=
| GetBlockHeaderByHashRequest_cls
| GetBlockBodyByHashRequest_cls
| GetReceiptsRequest_cls
| GetAccountRequest_cls
| GetContractCodeRequest_cls.

(** The instances of the five request dataclasses.  [_origin] is the slot
    of [BaseEvent] that the bus fills when it carries the event; a request
    that was just constructed has none. *)
Inductive Request : Type :=
| GetBlockHeaderByHashRequest (block_hash : Hash32) (_origin : option Token)
| GetBlockBodyByHashRequest (block_hash : Hash32) (_origin : option Token)
| GetReceiptsRequest (block_hash : Hash32) (_origin : option Token)
| GetAccountRequest (block_hash : Hash32) (address : Address) (_origin : option Token)
| GetContractCodeRequest (block_hash : Hash32) (address : Address) (_origin : option Token).

(** [type(event)] *)
Definition request_type (event : Request) : RequestType :=
  match event with
  | GetBlockHeaderByHashRequest _ _ => GetBlockHeaderByHashRequest_cls
  | GetBlockBodyByHashRequest _ _ => GetBlockBodyByHashRequest_cls
  | GetReceiptsRequest _ _ => GetReceiptsRequest_cls
  | GetAccountRequest _ _ _ => GetAccountRequest_cls
  | GetContractCodeRequest _ _ _ => GetContractCodeRequest_cls
  end.

(** [event.expected_response_type()]: a static method of each request
    class, which sees no field of the instance. *)
Definition expected_response_type (event : Request) : ResponseType :=
  match event with
  | GetBlockHeaderByHashRequest _ _ => BlockHeaderResponse_cls
  | GetBlockBodyByHashRequest _ _ => BlockBodyResponse_cls
  | GetReceiptsRequest _ _ => ReceiptsResponse_cls
  | GetAccountRequest _ _ _ => AccountResponse_cls
  | GetContractCodeRequest _ _ _ => BytesResponse_cls
  end.

(** [event.block_hash]: every request class has the field. *)
Definition block_hash (event : Request) : Hash32 :=
  match event with
  | GetBlockHeaderByHashRequest h _ | GetBlockBodyByHashRequest h _
  | GetReceiptsRequest h _ | GetAccountRequest h _ _
  | GetContractCodeRequest h _ _ => h
  end.

(** [event.address]: only two request classes have the field. *)
Definition address {W : Type} (event : Request) : Coro W Address :=
  match event with
  | GetAccountRequest _ a _ | GetContractCodeRequest _ a _ => ret a
  | _ => raise (AttributeError "address"%string)
  end.

(** [event.broadcast_config()]: the configuration that addresses the
    origin of the event. *)
Definition broadcast_config (event : Request) : BroadcastConfig :=
  match event with
  | GetBlockHeaderByHashRequest _ o | GetBlockBodyByHashRequest _ o
  | GetReceiptsRequest _ o | GetAccountRequest _ _ o
  | GetContractCodeRequest _ _ o => o
  end.

(** The bus fills the routing slot of the event it is about to carry. *)
Definition with_origin (token : Token) (event : Request) : Request :=
  match event with
  | GetBlockHeaderByHashRequest h _ => GetBlockHeaderByHashRequest h (Some token)
  | GetBlockBodyByHashRequest h _ => GetBlockBodyByHashRequest h (Some token)
  | GetReceiptsRequest h _ => GetReceiptsRequest h (Some token)
  | GetAccountRequest h a _ => GetAccountRequest h a (Some token)
  | GetContractCodeRequest h a _ => GetContractCodeRequest h a (Some token)
  end.

Definition RequestType_eqb (a b : RequestType) : bool :=
  match a, b with
  | GetBlockHeaderByHashRequest_cls, GetBlockHeaderByHashRequest_cls
  | GetBlockBodyByHashRequest_cls, GetBlockBodyByHashRequest_cls
  | GetReceiptsRequest_cls, GetReceiptsRequest_cls
  | GetAccountRequest_cls, GetAccountRequest_cls
  | GetContractCodeRequest_cls, GetContractCodeRequest_cls => true
  | _, _ => false
  end.

Definition ResponseType_eqb (a b : ResponseType) : bool :=
  match a, b with
  | BlockHeaderResponse_cls, BlockHeaderResponse_cls
  | BlockBodyResponse_cls, BlockBodyResponse_cls
  | ReceiptsResponse_cls, ReceiptsResponse_cls
  | AccountResponse_cls, AccountResponse_cls
  | BytesResponse_cls, BytesResponse_cls => true
  | _, _ => false
  end.

(** ** The bus endpoint

    The bus is an outside library, and [TrinityEventBusEndpoint] of
    [trinity/endpoint.py] is not among the sources.  The endpoint is
    described by what it does for this program: the requests it delivers
    to a subscriber before the subscriber is stopped, and the answer it
    correlates to a request.  Every call of a primitive is recorded in the
    history of the endpoint. *)

(** A call of a primitive of the endpoint. *)
Inductive BusCall : Type :=
| broadcast_call (item : Response) (config : BroadcastConfig)
| request_call (item : Request) (config : BroadcastConfig).

Definition History : Type := list BusCall.

(** Modelled from the spec: the endpoint, by its three primitives
    [subscribeStream], [broadcast] and [request]. *)
Record TrinityEventBusEndpoint : Type := {
  incoming : list Request;
  answer : History -> Request -> BroadcastConfig -> Outcome Response
}.

(** Modelled from the spec: [event_bus.stream(cls)], the delivered events
    of class [cls], in the order of their delivery. *)
Definition stream (event_bus : TrinityEventBusEndpoint) (cls : RequestType) : list Request :=
  filter (fun event => RequestType_eqb (request_type event) cls) (incoming event_bus).

(** Modelled from the spec: [event_bus.broadcast(item, config)] publishes
    the item to the place that the configuration names. *)
Definition broadcast (event_bus : TrinityEventBusEndpoint)
  (item : Response) (config : BroadcastConfig) : Coro History unit :=
  fun history => (Returned tt, history ++ [broadcast_call item config]).

(** Modelled from the spec: [event_bus.request(item, config)] sends one
    request, and the caller is suspended until the bus resolves the call. *)
Definition request (event_bus : TrinityEventBusEndpoint)
  (item : Request) (config : BroadcastConfig) : Coro History Response :=
  fun history =>
    (answer event_bus history item config, history ++ [request_call item config]).

(** The interface of the chain-data provider, [BaseLightPeerChain]: one
    suspending operation for each kind of query. *)
Record BaseLightPeerChain : Type := {
  coro_get_block_header_by_hash : Hash32 -> Outcome BlockHeader;
  coro_get_block_body_by_hash : Hash32 -> Outcome BlockBody;
  coro_get_receipts : Hash32 -> Outcome (list Receipt);
  coro_get_account : Hash32 -> Address -> Outcome Account;
  coro_get_contract_code : Hash32 -> Address -> Outcome bytes
}.

End Catalog.

Arguments obj_BlockHeader {BlockHeader BlockBody Receipt Account} block_header.
Arguments obj_BlockBody {BlockHeader BlockBody Receipt Account} block_body.
Arguments obj_Receipts {BlockHeader BlockBody Receipt Account} receipts.
Arguments obj_Account {BlockHeader BlockBody Receipt Account} account.
Arguments obj_bytes {BlockHeader BlockBody Receipt Account} bytez.
Arguments broadcast_call {BlockHeader BlockBody Receipt Account Token} item config.
Arguments request_call {BlockHeader BlockBody Receipt Account Token} item config.

(** ** The service framework *)

Section Service.

Variable W : Type.

(** Modelled from the spec: [BaseService] of [p2p/service.py], which is
    not among the sources.  The framework gives "a way to register a
    long-running task that runs until a shared cancellation signal fires,
    and a way to start/stop a named group of such tasks together": a
    service holds the tasks it has registered and one cancellation flag
    for all of them. *)
Record BaseService : Type := {
  _tasks : list (Coro W unit);
  is_cancelled : bool
}.

Definition new_service : BaseService :=
  {| _tasks := []; is_cancelled := false |}.

(** [service.run_daemon_task(awaitable)] *)
Definition run_daemon_task (service : BaseService) (awaitable : Coro W unit) : BaseService :=
  {| _tasks := _tasks service ++ [awaitable]; is_cancelled := is_cancelled service |}.

(** Stopping the service fires the shared signal. *)
Definition cancel (service : BaseService) : BaseService :=
  {| _tasks := _tasks service; is_cancelled := true |}.

(** The tasks that the scheduler still runs. *)
Definition running_tasks (service : BaseService) : list (Coro W unit) :=
  if is_cancelled service then [] else _tasks service.

(** Modelled from the spec: the cooperative scheduler.  Every running
    task is an independently scheduled task: it goes as far as it can,
    and a task that has failed or that stays suspended holds back no
    other task.  The spec orders nothing across tasks; they are run here
    in the order of their registration. *)
Definition schedule (service : BaseService) (w : W) : W :=
  fold_left (fun w task => snd (task w)) (running_tasks service) w.

End Service.

(** ** The provider-side relay *)

Module LightPeerChainEventBusHandler.
Section Relay.

Variables BlockHeader BlockBody Receipt Account Token : Type.

Local Abbreviation Chain := (BaseLightPeerChain BlockHeader BlockBody Receipt Account).
Local Abbreviation Endpoint := (TrinityEventBusEndpoint BlockHeader BlockBody Receipt Account Token).
Local Abbreviation History := (History BlockHeader BlockBody Receipt Account Token).

(** The attributes of the handler; [service] is the state it inherits
    from [BaseService]. *)
Record t : Type := {
  chain : Chain;
  event_bus : Endpoint;
  service : BaseService History
}.

Definition __init__ (chain : Chain) (event_bus : Endpoint) : t :=
  {| chain := chain; event_bus := event_bus; service := new_service History |}.

Definition handle_get_blockheader_by_hash_requests (self : t) : Coro History unit :=
  async_for (stream (event_bus self) (GetBlockHeaderByHashRequest_cls)) (fun event =>
    '(val, error) <- await_and_wrap_errors
      (await (outcome_map obj_BlockHeader
                (coro_get_block_header_by_hash (chain self) (block_hash event)))) ;;
    broadcast (event_bus self)
      (call_cls (expected_response_type event) val error)
      (broadcast_config event)).

Definition handle_get_blockbody_by_hash_requests (self : t) : Coro History unit :=
  async_for (stream (event_bus self) (GetBlockBodyByHashRequest_cls)) (fun event =>
    '(val, error) <- await_and_wrap_errors
      (await (outcome_map obj_BlockBody
                (coro_get_block_body_by_hash (chain self) (block_hash event)))) ;;
    broadcast (event_bus self)
      (call_cls (expected_response_type event) val error)
      (broadcast_config event)).

Definition handle_get_receipts_by_hash_requests (self : t) : Coro History unit :=
  async_for (stream (event_bus self) (GetReceiptsRequest_cls)) (fun event =>
    '(val, error) <- await_and_wrap_errors
      (await (outcome_map obj_Receipts
                (coro_get_receipts (chain self) (block_hash event)))) ;;
    broadcast (event_bus self)
      (call_cls (expected_response_type event) val error)
      (broadcast_config event)).

Definition handle_get_account_requests (self : t) : Coro History unit :=
  async_for (stream (event_bus self) (GetAccountRequest_cls)) (fun event =>
    event_address <- address event ;;
    '(val, error) <- await_and_wrap_errors
      (await (outcome_map obj_Account
                (coro_get_account (chain self) (block_hash event) event_address))) ;;
    broadcast (event_bus self)
      (call_cls (expected_response_type event) val error)
      (broadcast_config event)).

Definition handle_get_contract_code_requests (self : t) : Coro History unit :=
  async_for (stream (event_bus self) (GetContractCodeRequest_cls)) (fun event =>
    event_address <- address event ;;
    '(val, error) <- await_and_wrap_errors
      (await (outcome_map obj_bytes
                (coro_get_contract_code (chain self) (block_hash event) event_address))) ;;
    broadcast (event_bus self)
      (call_cls (expected_response_type event) val error)
      (broadcast_config event)).

(** [_run]: the five handlers become daemon tasks of the service. *)
Definition _run (self : t) : t :=
  let register (self : t) (awaitable : Coro History unit) : t :=
    {| chain := chain self;
       event_bus := event_bus self;
       service := run_daemon_task (service self) awaitable |} in
  let self := register self (handle_get_blockheader_by_hash_requests self) in
  let self := register self (handle_get_blockbody_by_hash_requests self) in
  let self := register self (handle_get_receipts_by_hash_requests self) in
  let self := register self (handle_get_account_requests self) in
  let self := register self (handle_get_contract_code_requests self) in
  self.

(** Modelled from the spec: stopping the relay, which the handler inherits
    from [BaseService], stops its service. *)
Definition stop (self : t) : t :=
  {| chain := chain self;
     event_bus := event_bus self;
     service := cancel (service self) |}.

End Relay.
End LightPeerChainEventBusHandler.

(** ** The consumer-side facade *)

Module EventBusLightPeerChain.
Section Facade.

Variables BlockHeader BlockBody Receipt Account Token : Type.

Local Abbreviation Endpoint := (TrinityEventBusEndpoint BlockHeader BlockBody Receipt Account Token).
Local Abbreviation History := (History BlockHeader BlockBody Receipt Account Token).
Local Abbreviation Response := (Response BlockHeader BlockBody Receipt Account).
Local Abbreviation PyObj := (PyObj BlockHeader BlockBody Receipt Account).

(** [TO_NETWORKING_BROADCAST_CONFIG] of [trinity/constants.py], which is not
    among the sources: the one configuration that addresses the provider
    side. *)
Variable TO_NETWORKING_BROADCAST_CONFIG : BroadcastConfig Token.

Record t : Type := {
  event_bus : Endpoint
}.

Definition __init__ (event_bus : Endpoint) : t :=
  {| event_bus := event_bus |}.

Definition _pass_or_raise (self : t) (response : Response) : Coro History Response :=
  match error response with
  | Some e => raise e
  | None => ret response
  end.

Definition coro_get_block_header_by_hash (self : t) (block_hash : Hash32)
  : Coro History (option PyObj) :=
  let event := GetBlockHeaderByHashRequest block_hash None in
  response <- request (event_bus self) event TO_NETWORKING_BROADCAST_CONFIG ;;
  response <- _pass_or_raise self response ;;
  await (block_header response).

Definition coro_get_block_body_by_hash (self : t) (block_hash : Hash32)
  : Coro History (option PyObj) :=
  let event := GetBlockBodyByHashRequest block_hash None in
  response <- request (event_bus self) event TO_NETWORKING_BROADCAST_CONFIG ;;
  response <- _pass_or_raise self response ;;
  await (block_body response).

Definition coro_get_receipts (self : t) (block_hash : Hash32)
  : Coro History (option PyObj) :=
  let event := GetReceiptsRequest block_hash None in
  response <- request (event_bus self) event TO_NETWORKING_BROADCAST_CONFIG ;;
  response <- _pass_or_raise self response ;;
  await (receipts response).

Definition coro_get_account (self : t) (block_hash : Hash32) (address : Address)
  : Coro History (option PyObj) :=
  let event := GetAccountRequest block_hash address None in
  response <- request (event_bus self) event TO_NETWORKING_BROADCAST_CONFIG ;;
  response <- _pass_or_raise self response ;;
  await (account response).

Definition coro_get_contract_code (self : t) (block_hash : Hash32) (address : Address)
  : Coro History (option PyObj) :=
  let event := GetContractCodeRequest block_hash address None in
  response <- request (event_bus self) event TO_NETWORKING_BROADCAST_CONFIG ;;
  response <- _pass_or_raise self response ;;
  await (bytez response).

End Facade.
End EventBusLightPeerChain.

(** ** Queries and the two sides connected *)

Module Relay := LightPeerChainEventBusHandler.
Module Facade := EventBusLightPeerChain.

Section Bridge.

Variables BlockHeader BlockBody Receipt Account Token : Type.

Local Abbreviation Chain := (BaseLightPeerChain BlockHeader BlockBody Receipt Account).
Local Abbreviation Endpoint := (TrinityEventBusEndpoint BlockHeader BlockBody Receipt Account Token).
Local Abbreviation History := (History BlockHeader BlockBody Receipt Account Token).
Local Abbreviation BusCall := (BusCall BlockHeader BlockBody Receipt Account Token).
Local Abbreviation Response := (Response BlockHeader BlockBody Receipt Account).
Local Abbreviation PyObj := (PyObj BlockHeader BlockBody Receipt Account).
Local Abbreviation Request := (Request Token).
Local Abbreviation RelayT := (Relay.t BlockHeader BlockBody Receipt Account Token).
Local Abbreviation FacadeT := (Facade.t BlockHeader BlockBody Receipt Account Token).

Variable TO_NETWORKING_BROADCAST_CONFIG : BroadcastConfig Token.

(** The bus compares routing data; the bridge never does. *)
Variable Token_eq_dec : forall a b : Token, {a = b} + {a <> b}.

(** A query: one of the five kinds, with its input. *)
Inductive Query : Type :=
| GetBlockHeaderByHash (block_hash : Hash32)
| GetBlockBodyByHash (block_hash : Hash32)
| GetReceipts (block_hash : Hash32)
| GetAccount (block_hash : Hash32) (address : Address)
| GetContractCode (block_hash : Hash32) (address : Address).

(** The query that a request asks. *)
Definition query_of (event : Request) : Query :=
  match event with
  | GetBlockHeaderByHashRequest h _ => GetBlockHeaderByHash h
  | GetBlockBodyByHashRequest h _ => GetBlockBodyByHash h
  | GetReceiptsRequest h _ => GetReceipts h
  | GetAccountRequest h a _ => GetAccount h a
  | GetContractCodeRequest h a _ => GetContractCode h a
  end.

(** The request that a facade call constructs for a query. *)
Definition request_of (query : Query) : Request :=
  match query with
  | GetBlockHeaderByHash h => GetBlockHeaderByHashRequest h None
  | GetBlockBodyByHash h => GetBlockBodyByHashRequest h None
  | GetReceipts h => GetReceiptsRequest h None
  | GetAccount h a => GetAccountRequest h a None
  | GetContractCode h a => GetContractCodeRequest h a None
  end.

(** The operation of the provider for a query. *)
Definition provider_call (chain : Chain) (query : Query) : Outcome PyObj :=
  match query with
  | GetBlockHeaderByHash h =>
      outcome_map obj_BlockHeader (coro_get_block_header_by_hash chain h)
  | GetBlockBodyByHash h =>
      outcome_map obj_BlockBody (coro_get_block_body_by_hash chain h)
  | GetReceipts h =>
      outcome_map obj_Receipts (coro_get_receipts chain h)
  | GetAccount h a =>
      outcome_map obj_Account (coro_get_account chain h a)
  | GetContractCode h a =>
      outcome_map obj_bytes (coro_get_contract_code chain h a)
  end.

(** The method of the facade for a query. *)
Definition facade_call (self : FacadeT) (query : Query) : Coro History (option PyObj) :=
  match query with
  | GetBlockHeaderByHash h =>
      Facade.coro_get_block_header_by_hash TO_NETWORKING_BROADCAST_CONFIG self h
  | GetBlockBodyByHash h =>
      Facade.coro_get_block_body_by_hash TO_NETWORKING_BROADCAST_CONFIG self h
  | GetReceipts h =>
      Facade.coro_get_receipts TO_NETWORKING_BROADCAST_CONFIG self h
  | GetAccount h a =>
      Facade.coro_get_account TO_NETWORKING_BROADCAST_CONFIG self h a
  | GetContractCode h a =>
      Facade.coro_get_contract_code TO_NETWORKING_BROADCAST_CONFIG self h a
  end.

(** The loop of the relay that consumes the requests of a class. *)
Definition handler_of (cls : RequestType) : RelayT -> Coro History unit :=
  match cls with
  | GetBlockHeaderByHashRequest_cls => @Relay.handle_get_blockheader_by_hash_requests _ _ _ _ _
  | GetBlockBodyByHashRequest_cls => @Relay.handle_get_blockbody_by_hash_requests _ _ _ _ _
  | GetReceiptsRequest_cls => @Relay.handle_get_receipts_by_hash_requests _ _ _ _ _
  | GetAccountRequest_cls => @Relay.handle_get_account_requests _ _ _ _ _
  | GetContractCodeRequest_cls => @Relay.handle_get_contract_code_requests _ _ _ _ _
  end.

(** The request classes, in the order in which [_run] starts their loops. *)
Definition request_classes : list RequestType :=
  [GetBlockHeaderByHashRequest_cls; GetBlockBodyByHashRequest_cls; GetReceiptsRequest_cls;
   GetAccountRequest_cls; GetContractCodeRequest_cls].

(** The bus can tell two configurations apart. *)
Definition BroadcastConfig_eqb (a b : BroadcastConfig Token) : bool :=
  match a, b with
  | Some x, Some y => if Token_eq_dec x y then true else false
  | None, None => true
  | _, _ => false
  end.

(** Whether a call publishes something to the origin of [event]. *)
Definition is_reply_to (event : Request) (call : BusCall) : bool :=
  match call with
  | broadcast_call _ config => BroadcastConfig_eqb config (broadcast_config event)
  | request_call _ _ => false
  end.

(** Modelled from the spec: the bus resolves a pending request with the
    first response that was published to the origin of the request; a response of another class
    than the one bound to the request is a violation of the protocol.  A
    request that nothing answers stays pending. *)
Definition correlate (event : Request) (published : History) : Outcome Response :=
  match find (is_reply_to event) published with
  | Some (broadcast_call item _) =>
      if ResponseType_eqb (response_type item) (expected_response_type event)
      then Returned item
      else Raised UnexpectedResponse
  | _ => Pending
  end.

(** Nothing in [published] is addressed to the origin of [event]. *)
Definition no_reply_to (event : Request) (published : History) : Prop :=
  Forall (fun call => is_reply_to event call = false) published.

(** The endpoint of a relay that is given the events [delivered]. *)
Definition relay_endpoint (delivered : list Request) : Endpoint :=
  {| incoming := delivered; answer := fun _ _ _ => Pending |}.

(** What a relay over [chain] publishes once it is started and is given the
    events [delivered]. *)
Definition relay_published (chain : Chain) (delivered : list Request) : History :=
  schedule (Relay.service (Relay._run (Relay.__init__ chain (relay_endpoint delivered)))) [].

(** Modelled from the spec: the endpoint of a consumer whose bus leads to
    a started relay over [chain].  The relay has been delivered the requests [backlog] of other
    callers.  The bus marks each request with the token [new_token] makes
    for it, delivers it to the relay when the request is sent to the
    provider side, and correlates what the relay publishes. *)
Definition consumer_endpoint (chain : Chain) (backlog : list Request)
  (new_token : History -> Token) : Endpoint :=
  {| incoming := [];
     answer := fun history item config =>
       if BroadcastConfig_eqb config TO_NETWORKING_BROADCAST_CONFIG then
         let event := with_origin (new_token history) item in
         correlate event (relay_published chain (backlog ++ [event]))
       else Pending |}.

(** ** What a relay loop does with one event *)

(** The value and the error that a response carries for an outcome of the
    provider. *)
Inductive carries : Outcome PyObj -> option PyObj -> option Exception -> Prop :=
| carries_value (v : PyObj) : carries (Returned v) (Some v) None
| carries_failure (e : Exception) : carries (Raised e) None (Some e).

(** [call] answers [event]: it publishes, to the origin of the event, a
    response of the class bound to the event, which carries the outcome of
    the provider for the query of the event. *)
Definition responds (chain : Chain) (event : Request) (call : BusCall) : Prop :=
  exists val err,
    carries (provider_call chain (query_of event)) val err /\
    call = broadcast_call (call_cls (expected_response_type event) val err)
             (broadcast_config event).

(** One turn of a relay loop, for an event of any class. *)
Definition respond (self : RelayT) (event : Request) : Coro History unit :=
  '(val, error) <- await_and_wrap_errors
    (await (provider_call (Relay.chain self) (query_of event))) ;;
  broadcast (Relay.event_bus self)
    (call_cls (expected_response_type event) val error)
    (broadcast_config event).

(** The publications of a loop that is given [events], up to the first
    event on which the provider never resolves. *)
Fixpoint replies (chain : Chain) (events : list Request) : History :=
  match events with
  | [] => []
  | event :: rest =>
      match provider_call chain (query_of event) with
      | Returned v =>
          broadcast_call (call_cls (expected_response_type event) (Some v) None)
            (broadcast_config event) :: replies chain rest
      | Raised e =>
          broadcast_call (call_cls (expected_response_type event) None (Some e))
            (broadcast_config event) :: replies chain rest
      | Pending => []
      end
  end.

(** How a loop that is given [events] ends. *)
Fixpoint loop_end (chain : Chain) (events : list Request) : Outcome unit :=
  match events with
  | [] => Returned tt
  | event :: rest =>
      match provider_call chain (query_of event) with
      | Pending => Pending
      | _ => loop_end chain rest
      end
  end.

(** The provider resolves the query of every one of [events]. *)
Definition resolves (chain : Chain) (events : list Request) : Prop :=
  forall event, In event events -> provider_call chain (query_of event) <> Pending.

End Bridge.

Arguments relay_endpoint {BlockHeader BlockBody Receipt Account Token} delivered.
Arguments request_of {Token} query.

(** ** Renaming the routing data *)

Section Renaming.

Variables BlockHeader BlockBody Receipt Account Token Token' : Type.
Variable f : Token -> Token'.

Definition map_origin (event : Request Token) : Request Token' :=
  match event with
  | GetBlockHeaderByHashRequest h o => GetBlockHeaderByHashRequest h (option_map f o)
  | GetBlockBodyByHashRequest h o => GetBlockBodyByHashRequest h (option_map f o)
  | GetReceiptsRequest h o => GetReceiptsRequest h (option_map f o)
  | GetAccountRequest h a o => GetAccountRequest h a (option_map f o)
  | GetContractCodeRequest h a o => GetContractCodeRequest h a (option_map f o)
  end.

Definition map_call (call : BusCall BlockHeader BlockBody Receipt Account Token)
  : BusCall BlockHeader BlockBody Receipt Account Token' :=
  match call with
  | broadcast_call item config => broadcast_call item (option_map f config)
  | request_call item config => request_call (map_origin item) (option_map f config)
  end.

End Renaming.

(** The name of the data field of each response class. *)
Definition payload_field (cls : ResponseType) : string :=
  match cls with
  | BlockHeaderResponse_cls => "block_header"
  | BlockBodyResponse_cls => "block_body"
  | ReceiptsResponse_cls => "receipts"
  | AccountResponse_cls => "account"
  | BytesResponse_cls => "bytez"
  end%string.

(** ** The configuration of the state fixtures

    [generate_config_by_dict] of
    [tests/eth2/beacon/state-fixtures/test_minimal_state.py].  A dictionary
    keeps its keys in the order of their insertion and holds each key
    once. *)

(** [sub in s], for two strings. *)
Fixpoint str_in (sub s : string) : bool :=
  String.prefix sub s ||
  match s with
  | EmptyString => false
  | String _ rest => str_in sub rest
  end.

Section Dict.

Variable V : Type.

Definition PyDict : Type := list (string * V).

(** [list(d)] *)
Definition dict_keys (d : PyDict) : list string := map fst d.

(** [d[key]], [None] standing for a missing key. *)
Fixpoint dict_get (key : string) (d : PyDict) : option V :=
  match d with
  | [] => None
  | (k, v) :: rest => if String.eqb k key then Some v else dict_get key rest
  end.

(** [d[key] = value]: a key that is present keeps its place. *)
Fixpoint dict_setitem (key : string) (value : V) (d : PyDict) : PyDict :=
  match d with
  | [] => [(key, value)]
  | (k, v) :: rest =>
      if String.eqb k key then (k, value) :: rest
      else (k, v) :: dict_setitem key value rest
  end.

(** [d.pop(key, None)], for its effect on [d]. *)
Fixpoint dict_pop (key : string) (d : PyDict) : PyDict :=
  match d with
  | [] => []
  | (k, v) :: rest =>
      if String.eqb k key then rest else (k, v) :: dict_pop key rest
  end.

(** A dictionary holds each key once. *)
Definition well_formed (d : PyDict) : Prop := NoDup (dict_keys d).

End Dict.

Section FixtureConfig.

(** The values of a configuration, with the byte strings among them. *)
Variable Value : Type.
Variable of_bytes : bytes -> Value.

(** [Eth2Config] of [eth2/configs.py], which is not among the sources: the
    constructor takes the entries of the dictionary as keyword arguments,
    and fails on a keyword it does not know or misses. *)
Variable Config : Type.
Variable Eth2Config : PyDict Value -> Outcome Config.

(** The test of line 90, ['DOMAIN_' in key in key]: a chained comparison,
    which is the conjunction of its two links. *)
Definition is_domain_key (key : string) : bool :=
  str_in "DOMAIN_" key && str_in key key.

(** [generate_config_by_dict(dict_config)]: the value it returns, and the
    dictionary of the caller as the call leaves it, since the argument is
    changed in place. *)
Definition generate_config_by_dict (dict_config : PyDict Value)
  : Outcome Config * PyDict Value :=
  let dict_config :=
    dict_setitem "DEPOSIT_CONTRACT_ADDRESS" (of_bytes (repeat Byte.x00 20)) dict_config in
  let dict_config :=
    fold_left
      (fun dict_config key =>
         if is_domain_key key then dict_pop key dict_config else dict_config)
      (dict_keys dict_config) dict_config in
  (Eth2Config dict_config, dict_config).

End FixtureConfig.

(** A configuration of a fixture, with numbers for values. *)
Definition scenario_config : PyDict nat :=
  [("SHARD_COUNT", 8); ("DOMAIN_DEPOSIT", 3); ("DEPOSIT_CONTRACT_ADDRESS", 5);
   ("MAX_DOMAIN_X", 4); ("SLOTS_PER_EPOCH", 64)]%string.

(** ** A scenario

    The provider knows the header [H] of the block [0xAA..] and fails
    with "not found" at every other hash; it never resolves a query for an
    account.  Headers, bodies and the like are strings here, and tokens are
    numbers. *)

Definition hash_AA : Hash32 := repeat Byte.xaa 32.
Definition hash_BB : Hash32 := repeat Byte.xbb 32.
Definition some_address : Address := repeat Byte.x01 20.

Definition bytes_eqb (a b : bytes) : bool :=
  if list_eq_dec Byte.byte_eq_dec a b then true else false.

Definition scenario_chain : BaseLightPeerChain string string string string :=
  {| coro_get_block_header_by_hash := fun h =>
       if bytes_eqb h hash_AA then Returned "H"%string
       else Raised (Failure "not found");
     coro_get_block_body_by_hash := fun h =>
       if bytes_eqb h hash_AA then Returned "B"%string
       else Raised (Failure "not found");
     coro_get_receipts := fun h =>
       if bytes_eqb h hash_AA then Returned ["r1"%string; "r2"%string]
       else Raised (Failure "not found");
     coro_get_account := fun h a => Pending;
     coro_get_contract_code := fun h a => Returned a |}.

(** The configuration of the provider side. *)
Definition scenario_networking : BroadcastConfig nat := Some 0.

(** A request for an account, from another caller, that the relay holds. *)
Definition scenario_backlog : list (Request nat) :=
  [GetAccountRequest hash_AA some_address (Some 1);
   GetBlockHeaderByHashRequest hash_BB (Some 2)].

(** The bus numbers the requests of the consumer from 10 on. *)
Definition scenario_token (history : History string string string string nat) : nat :=
  10 + length history.

Definition scenario_facade : Facade.t string string string string nat :=
  Facade.__init__
    (consumer_endpoint scenario_networking Nat.eq_dec scenario_chain scenario_backlog
       scenario_token).

Definition scenario_relay : Relay.t string string string string nat :=
  Relay.__init__ scenario_chain
    (relay_endpoint
       [GetBlockHeaderByHashRequest hash_AA (Some 3);
        GetBlockHeaderByHashRequest hash_BB (Some 4);
        GetContractCodeRequest hash_AA some_address (Some 5);
        GetBlockHeaderByHashRequest hash_AA (Some 6)]).

(** An endpoint whose bus answers every request with a response of the
    bound class that has neither a payload nor an error. *)
Definition scenario_empty_endpoint : TrinityEventBusEndpoint string string string string nat :=
  {| incoming := [];
     answer := fun _ item _ => Returned (call_cls (expected_response_type item) None None) |}.

(** No request of the backlog carries a token of the consumer. *)
Ltac scenario_fresh :=
  unfold scenario_token;
  let Heq := fresh "Heq" in
  intros ? [<-|[<-|[]]]; cbn; intros Heq; injection Heq; lia.

(** An endpoint whose bus gives one and the same answer to every
    request. *)
Definition scenario_answering (what : Outcome (Response string string string string))
  : TrinityEventBusEndpoint string string string string nat :=
  {| incoming := []; answer := fun _ _ _ => what |}.

(** A provider that knows the header of [0xAA..] and never resolves the
    query for the header of any other block. *)
Definition scenario_stalling_chain : BaseLightPeerChain string string string string :=
  {| coro_get_block_header_by_hash := fun h =>
       if bytes_eqb h hash_AA then Returned "H"%string else Pending;
     coro_get_block_body_by_hash := coro_get_block_body_by_hash scenario_chain;
     coro_get_receipts := coro_get_receipts scenario_chain;
     coro_get_account := coro_get_account scenario_chain;
     coro_get_contract_code := coro_get_contract_code scenario_chain |}.

(** The constructor of the configuration, as the identity on its keyword
    arguments. *)
Definition scenario_Eth2Config (kwargs : PyDict nat) : Outcome (PyDict nat) :=
  Returned kwargs.

(** * Properties *)

Lemma async_for_cons {W A : Type} (event : A) (rest : list A) (body : A -> Coro W unit) (w : W) :
  async_for (event :: rest) body w =
  match body event w with
  | (Returned _, w') => async_for rest body w'
  | (Raised e, w') => (Raised e, w')
  | (Pending, w') => (Pending, w')
  end.
Proof. reflexivity. Qed.

Lemma async_for_ext {W A : Type} (events : list A) (body1 body2 : A -> Coro W unit) :
  (forall event, In event events -> forall w, body1 event w = body2 event w) ->
  forall w, async_for events body1 w = async_for events body2 w.
Proof.
  induction events as [|event rest IH]; intros Hbody w; [reflexivity|].
  rewrite !async_for_cons.
  rewrite (Hbody event (or_introl eq_refl) w).
  destruct (body2 event w) as [[[]|e|] w']; try reflexivity.
  apply IH. intros ev Hin. apply Hbody. right. exact Hin.
Qed.

Lemma filter_all {A : Type} (keep : A -> bool) (l : list A) :
  (forall x, In x l -> keep x = true) -> filter keep l = l.
Proof.
  induction l as [|x rest IH]; intros Hall; [reflexivity|].
  cbn [filter]. rewrite (Hall x (or_introl eq_refl)), IH; [reflexivity|].
  intros y Hin. apply Hall. now right.
Qed.

Lemma filter_none {A : Type} (keep : A -> bool) (l : list A) :
  (forall x, In x l -> keep x = false) -> filter keep l = [].
Proof.
  induction l as [|x rest IH]; intros Hnone; [reflexivity|].
  cbn [filter]. rewrite (Hnone x (or_introl eq_refl)). apply IH.
  intros y Hin. apply Hnone. now right.
Qed.

Section BridgeFacts.

Variables BlockHeader BlockBody Receipt Account Token : Type.

Local Abbreviation Chain := (BaseLightPeerChain BlockHeader BlockBody Receipt Account).
Local Abbreviation Endpoint := (TrinityEventBusEndpoint BlockHeader BlockBody Receipt Account Token).
Local Abbreviation History := (History BlockHeader BlockBody Receipt Account Token).
Local Abbreviation BusCall := (BusCall BlockHeader BlockBody Receipt Account Token).
Local Abbreviation Response := (Response BlockHeader BlockBody Receipt Account).
Local Abbreviation PyObj := (PyObj BlockHeader BlockBody Receipt Account).
Local Abbreviation Request := (Request Token).
Local Abbreviation RelayT := (Relay.t BlockHeader BlockBody Receipt Account Token).
Local Abbreviation FacadeT := (Facade.t BlockHeader BlockBody Receipt Account Token).
Local Abbreviation relay_ep := (@relay_endpoint BlockHeader BlockBody Receipt Account Token).

Lemma RequestType_eqb_eq (a b : RequestType) : RequestType_eqb a b = true <-> a = b.
Proof. destruct a, b; cbn; split; congruence. Qed.

Lemma ResponseType_eqb_refl (a : ResponseType) : ResponseType_eqb a a = true.
Proof. destruct a; reflexivity. Qed.

Lemma stream_class (event_bus : Endpoint) (cls : RequestType) (event : Request) :
  In event (stream event_bus cls) <->
  In event (incoming event_bus) /\ request_type event = cls.
Proof.
  unfold stream. rewrite filter_In, RequestType_eqb_eq. tauto.
Qed.

Lemma response_type_call_cls (cls : ResponseType) (val : option PyObj) (err : option Exception) :
  response_type (call_cls cls val err) = cls.
Proof. destruct cls; reflexivity. Qed.

Lemma error_call_cls (cls : ResponseType) (val : option PyObj) (err : option Exception) :
  error (call_cls cls val err) = err.
Proof. destruct cls; reflexivity. Qed.

Lemma payload_call_cls (cls : ResponseType) (val : option PyObj) (err : option Exception) :
  payload (call_cls cls val err) = val.
Proof. destruct cls; reflexivity. Qed.

(** Each of the five loops of the source is the loop of [respond] over the
    stream of its class. *)
Lemma handler_of_respond (cls : RequestType) (self : RelayT) (history : History) :
  handler_of cls self history =
  async_for (stream (Relay.event_bus self) cls) (respond self) history.
Proof.
  destruct cls; cbn [handler_of];
    [ unfold Relay.handle_get_blockheader_by_hash_requests
    | unfold Relay.handle_get_blockbody_by_hash_requests
    | unfold Relay.handle_get_receipts_by_hash_requests
    | unfold Relay.handle_get_account_requests
    | unfold Relay.handle_get_contract_code_requests ];
    apply async_for_ext; intros event Hin w;
    apply stream_class in Hin; destruct Hin as [_ Hcls];
    destruct event; try discriminate Hcls; reflexivity.
Qed.

Lemma respond_run (self : RelayT) (event : Request) (history : History) :
  respond self event history =
  match provider_call (Relay.chain self) (query_of event) with
  | Returned v =>
      (Returned tt,
       history ++ [broadcast_call (call_cls (expected_response_type event) (Some v) None)
                     (broadcast_config event)])
  | Raised e =>
      (Returned tt,
       history ++ [broadcast_call (call_cls (expected_response_type event) None (Some e))
                     (broadcast_config event)])
  | Pending => (Pending, history)
  end.
Proof.
  unfold respond. cbn. unfold coro_bind, await_and_wrap_errors, await, broadcast.
  destruct (provider_call (Relay.chain self) (query_of event)); reflexivity.
Qed.

Lemma respond_loop (self : RelayT) (events : list Request) (history : History) :
  async_for events (respond self) history =
  (loop_end (Relay.chain self) events, history ++ replies (Relay.chain self) events).
Proof.
  revert history. induction events as [|event rest IH]; intros history.
  - cbn. unfold coro_ret. now rewrite app_nil_r.
  - rewrite async_for_cons, respond_run. cbn [replies loop_end].
    destruct (provider_call (Relay.chain self) (query_of event)).
    + rewrite IH, <- app_assoc. reflexivity.
    + rewrite IH, <- app_assoc. reflexivity.
    + now rewrite app_nil_r.
Qed.

Lemma handler_run (cls : RequestType) (self : RelayT) (history : History) :
  handler_of cls self history =
  (loop_end (Relay.chain self) (stream (Relay.event_bus self) cls),
   history ++ replies (Relay.chain self) (stream (Relay.event_bus self) cls)).
Proof. rewrite handler_of_respond. apply respond_loop. Qed.

Lemma loop_end_not_raised (chain : Chain) (events : list Request) (e : Exception) :
  loop_end chain events <> Raised e.
Proof.
  induction events as [|event rest IH]; cbn; [discriminate|].
  destruct (provider_call chain (query_of event)); auto; discriminate.
Qed.

Lemma loop_end_resolves (chain : Chain) (events : list Request) :
  resolves chain events -> loop_end chain events = Returned tt.
Proof.
  induction events as [|event rest IH]; intros Hres; cbn; [reflexivity|].
  assert (Hrest : resolves chain rest) by (intros ev Hin; apply Hres; now right).
  pose proof (Hres event (or_introl eq_refl)) as Hev.
  destruct (provider_call chain (query_of event)); auto. congruence.
Qed.

Lemma replies_resolves (chain : Chain) (events : list Request) :
  resolves chain events -> Forall2 (responds chain) events (replies chain events).
Proof.
  induction events as [|event rest IH]; intros Hres; cbn [replies]; [constructor|].
  assert (Hrest : resolves chain rest) by (intros ev Hin; apply Hres; now right).
  pose proof (Hres event (or_introl eq_refl)) as Hev.
  destruct (provider_call chain (query_of event)) as [v|e|] eqn:Hcall; [| |congruence].
  - constructor; [|auto]. exists (Some v), None. rewrite Hcall. split; [constructor|reflexivity].
  - constructor; [|auto]. exists None, (Some e). rewrite Hcall. split; [constructor|reflexivity].
Qed.

(** In every case the publications answer, one for one and in order, the
    events of a prefix of the stream. *)
Lemma replies_prefix (chain : Chain) (events : list Request) :
  exists answered rest,
    events = answered ++ rest /\ Forall2 (responds chain) answered (replies chain events).
Proof.
  induction events as [|event tl IH]; cbn [replies].
  - exists [], []. split; [reflexivity|constructor].
  - destruct IH as (answered & rest & Heq & Hall).
    destruct (provider_call chain (query_of event)) as [v|e|] eqn:Hcall.
    + exists (event :: answered), rest. split; [cbn; congruence|].
      constructor; [|exact Hall].
      exists (Some v), None. rewrite Hcall. split; [constructor|reflexivity].
    + exists (event :: answered), rest. split; [cbn; congruence|].
      constructor; [|exact Hall].
      exists None, (Some e). rewrite Hcall. split; [constructor|reflexivity].
    + exists [], (event :: tl). split; [reflexivity|constructor].
Qed.

Lemma replies_app (chain : Chain) (events events' : list Request) :
  resolves chain events ->
  replies chain (events ++ events') = replies chain events ++ replies chain events'.
Proof.
  induction events as [|event rest IH]; intros Hres; [reflexivity|].
  assert (Hrest : resolves chain rest) by (intros ev Hin; apply Hres; now right).
  pose proof (Hres event (or_introl eq_refl)) as Hev.
  cbn [app replies].
  destruct (provider_call chain (query_of event)); [| |congruence];
    rewrite IH by assumption; reflexivity.
Qed.

(** ** The tasks of a started relay *)

Lemma run_tasks (self : RelayT) :
  _tasks (Relay.service (Relay._run self)) =
  _tasks (Relay.service self) ++ map (fun cls => handler_of cls self) request_classes.
Proof.
  unfold Relay._run. cbn [Relay.service run_daemon_task _tasks].
  rewrite <- !app_assoc. reflexivity.
Qed.

Lemma run_is_cancelled (self : RelayT) :
  is_cancelled (Relay.service (Relay._run self)) = is_cancelled (Relay.service self).
Proof. reflexivity. Qed.

Lemma schedule_run (chain : Chain) (event_bus : Endpoint) (history : History) :
  schedule (Relay.service (Relay._run (Relay.__init__ chain event_bus))) history =
  history ++ flat_map (fun cls => replies chain (stream event_bus cls)) request_classes.
Proof.
  unfold schedule, running_tasks.
  rewrite run_is_cancelled, run_tasks.
  cbn [Relay.__init__ Relay.service new_service is_cancelled _tasks app
       request_classes map fold_left flat_map].
  rewrite !handler_run. cbn [snd Relay.chain Relay.event_bus].
  rewrite <- !app_assoc, app_nil_r. reflexivity.
Qed.

(** ** Correlation *)

Variable TO_NETWORKING_BROADCAST_CONFIG : BroadcastConfig Token.
Variable Token_eq_dec : forall a b : Token, {a = b} + {a <> b}.

Lemma BroadcastConfig_eqb_eq (a b : BroadcastConfig Token) :
  BroadcastConfig_eqb Token_eq_dec a b = true <-> a = b.
Proof.
  destruct a as [x|], b as [y|]; cbn; try (split; congruence).
  destruct (Token_eq_dec x y); split; congruence.
Qed.

Lemma BroadcastConfig_eqb_refl (a : BroadcastConfig Token) :
  BroadcastConfig_eqb Token_eq_dec a a = true.
Proof. now apply BroadcastConfig_eqb_eq. Qed.

Lemma correlate_skip (event : Request) (before after : History) :
  no_reply_to Token_eq_dec event before ->
  correlate Token_eq_dec event (before ++ after) = correlate Token_eq_dec event after.
Proof.
  unfold correlate. induction 1 as [|call rest Hcall _ IH]; [reflexivity|].
  cbn [app find]. rewrite Hcall. exact IH.
Qed.

Lemma correlate_none (event : Request) (published : History) :
  no_reply_to Token_eq_dec event published -> correlate Token_eq_dec event published = Pending.
Proof.
  unfold correlate. induction 1 as [|call rest Hcall _ IH]; [reflexivity|].
  cbn [find]. rewrite Hcall. exact IH.
Qed.

Lemma correlate_hit (event : Request) (val : option PyObj) (err : option Exception)
  (after : History) :
  correlate Token_eq_dec event
    (broadcast_call (call_cls (expected_response_type event) val err)
       (broadcast_config event) :: after) =
  Returned (call_cls (expected_response_type event) val err).
Proof.
  unfold correlate. cbn [find is_reply_to].
  now rewrite BroadcastConfig_eqb_refl, response_type_call_cls, ResponseType_eqb_refl.
Qed.

Lemma no_reply_to_app (event : Request) (before after : History) :
  no_reply_to Token_eq_dec event before -> no_reply_to Token_eq_dec event after -> no_reply_to Token_eq_dec event (before ++ after).
Proof. unfold no_reply_to. intros. apply Forall_app. now split. Qed.

Lemma replies_no_reply (chain : Chain) (event : Request) (events : list Request) :
  (forall ev, In ev events -> broadcast_config ev <> broadcast_config event) ->
  no_reply_to Token_eq_dec event (replies chain events).
Proof.
  unfold no_reply_to.
  induction events as [|ev rest IH]; intros Hfresh; cbn [replies]; [constructor|].
  assert (Hev : BroadcastConfig_eqb Token_eq_dec (broadcast_config ev) (broadcast_config event)
                = false).
  { destruct (BroadcastConfig_eqb Token_eq_dec (broadcast_config ev) (broadcast_config event))
      eqn:Heq; [|reflexivity].
    apply BroadcastConfig_eqb_eq in Heq. now apply Hfresh in Heq; [|left]. }
  assert (Hrest : Forall (fun call => is_reply_to Token_eq_dec event call = false)
                    (replies chain rest))
    by (apply IH; intros; apply Hfresh; now right).
  destruct (provider_call chain (query_of ev)); constructor; auto.
Qed.

Lemma stream_relay_app (backlog : list Request) (event : Request) (cls : RequestType) :
  stream (relay_ep (backlog ++ [event])) cls =
  stream (relay_ep backlog) cls ++
  (if RequestType_eqb (request_type event) cls then [event] else []).
Proof.
  unfold stream. cbn [incoming relay_ep]. rewrite filter_app. cbn [filter].
  now destruct (RequestType_eqb (request_type event) cls).
Qed.

Lemma relay_published_eq (chain : Chain) (delivered : list Request) :
  relay_published chain delivered =
  flat_map (fun cls => replies chain (stream (relay_ep delivered) cls)) request_classes.
Proof. unfold relay_published. now rewrite schedule_run. Qed.

Section Correlated.

Variable chain : Chain.
Variable backlog : list Request.
Variable event : Request.

Hypothesis fresh : forall ev, In ev backlog -> broadcast_config ev <> broadcast_config event.

Local Abbreviation published_by classes :=
  (flat_map (fun cls => replies chain (stream (relay_ep (backlog ++ [event])) cls)) classes).

Lemma backlog_no_reply (cls : RequestType) :
  no_reply_to Token_eq_dec event (replies chain (stream (relay_ep backlog) cls)).
Proof.
  apply replies_no_reply. intros ev Hin. apply stream_class in Hin. now apply fresh.
Qed.

Lemma replies_prefix_no_reply (events events' : list Request) :
  no_reply_to Token_eq_dec event (replies chain events) ->
  no_reply_to Token_eq_dec event (replies chain events') ->
  no_reply_to Token_eq_dec event (replies chain (events ++ events')).
Proof.
  unfold no_reply_to.
  induction events as [|ev rest IH]; intros Hfirst Hsecond; [exact Hsecond|].
  cbn [app replies] in *.
  destruct (provider_call chain (query_of ev)); [| |constructor];
    inversion Hfirst; subst; constructor; auto.
Qed.

Lemma other_class_no_reply (cls : RequestType) :
  request_type event <> cls ->
  no_reply_to Token_eq_dec event
    (replies chain (stream (relay_ep (backlog ++ [event])) cls)).
Proof.
  intros Hcls. rewrite stream_relay_app.
  destruct (RequestType_eqb (request_type event) cls) eqn:Heq.
  - apply RequestType_eqb_eq in Heq. contradiction.
  - rewrite app_nil_r. apply backlog_no_reply.
Qed.

Lemma pending_no_reply (classes : list RequestType) :
  provider_call chain (query_of event) = Pending ->
  no_reply_to Token_eq_dec event (published_by classes).
Proof.
  intros Hpending.
  induction classes as [|cls rest IH]; [constructor|].
  cbn [flat_map]. apply no_reply_to_app; [|exact IH].
  rewrite stream_relay_app. apply replies_prefix_no_reply; [apply backlog_no_reply|].
  destruct (RequestType_eqb (request_type event) cls); cbn [replies]; [|constructor].
  rewrite Hpending. constructor.
Qed.

Lemma correlate_published (classes : list RequestType) (val : option PyObj)
  (err : option Exception) :
  In (request_type event) classes ->
  resolves chain (stream (relay_ep backlog) (request_type event)) ->
  carries (provider_call chain (query_of event)) val err ->
  correlate Token_eq_dec event (published_by classes) =
  Returned (call_cls (expected_response_type event) val err).
Proof.
  intros Hin Hres Hcarries.
  induction classes as [|cls rest IH]; [contradiction|].
  cbn [flat_map].
  destruct (RequestType_eqb (request_type event) cls) eqn:Heq.
  - apply RequestType_eqb_eq in Heq. subst cls.
    rewrite stream_relay_app.
    replace (RequestType_eqb (request_type event) (request_type event)) with true
      by (symmetry; now apply RequestType_eqb_eq).
    rewrite replies_app by exact Hres.
    rewrite <- app_assoc, correlate_skip by apply backlog_no_reply.
    cbn [replies].
    inversion Hcarries as [v Hcall|e Hcall]; subst; cbn [app]; apply correlate_hit.
  - assert (Hneq : request_type event <> cls).
    { intros Heq'. apply RequestType_eqb_eq in Heq'. congruence. }
    rewrite correlate_skip by (apply other_class_no_reply; exact Hneq).
    apply IH. destruct Hin as [Hin|Hin]; [congruence|exact Hin].
Qed.

End Correlated.

Lemma request_classes_complete (cls : RequestType) : In cls request_classes.
Proof. destruct cls; cbn; tauto. Qed.

Lemma request_classes_NoDup : NoDup request_classes.
Proof.
  unfold request_classes.
  repeat (constructor; [cbn; intuition discriminate|]). constructor.
Qed.

Lemma query_of_with_origin (token : Token) (event : Request) :
  query_of (with_origin token event) = query_of event.
Proof. destruct event; reflexivity. Qed.

Lemma expected_response_type_with_origin (token : Token) (event : Request) :
  expected_response_type (with_origin token event) = expected_response_type event.
Proof. destruct event; reflexivity. Qed.

Lemma request_type_with_origin (token : Token) (event : Request) :
  request_type (with_origin token event) = request_type event.
Proof. destruct event; reflexivity. Qed.

Lemma broadcast_config_with_origin (token : Token) (event : Request) :
  broadcast_config (with_origin token event) = Some token.
Proof. destruct event; reflexivity. Qed.

Lemma query_of_request_of (query : Query) : query_of (request_of (Token := Token) query) = query.
Proof. destruct query; reflexivity. Qed.

(** ** The facade *)

Local Abbreviation TO := TO_NETWORKING_BROADCAST_CONFIG.

Lemma facade_history (self : FacadeT) (query : Query) (history : History) :
  snd (facade_call TO self query history) = history ++ [request_call (request_of query) TO].
Proof.
  destruct query; cbn [facade_call request_of];
    [ unfold Facade.coro_get_block_header_by_hash
    | unfold Facade.coro_get_block_body_by_hash
    | unfold Facade.coro_get_receipts
    | unfold Facade.coro_get_account
    | unfold Facade.coro_get_contract_code ];
    cbn; unfold coro_bind, request;
    match goal with |- context [answer ?b ?h ?i ?c] => destruct (answer b h i c) as [response| |] end;
    try reflexivity;
    unfold Facade._pass_or_raise; destruct (error response); reflexivity.
Qed.

Lemma facade_pending (self : FacadeT) (query : Query) (history : History) :
  answer (Facade.event_bus self) history (request_of query) TO = Pending ->
  fst (facade_call TO self query history) = Pending.
Proof.
  intros Hanswer.
  destruct query; cbn [facade_call request_of] in *;
    [ unfold Facade.coro_get_block_header_by_hash
    | unfold Facade.coro_get_block_body_by_hash
    | unfold Facade.coro_get_receipts
    | unfold Facade.coro_get_account
    | unfold Facade.coro_get_contract_code ];
    cbn; unfold coro_bind, request; rewrite Hanswer; reflexivity.
Qed.

Lemma facade_raises (self : FacadeT) (query : Query) (history : History)
  (response : Response) (e : Exception) :
  answer (Facade.event_bus self) history (request_of query) TO = Returned response ->
  error response = Some e ->
  fst (facade_call TO self query history) = Raised e.
Proof.
  intros Hanswer Herror.
  destruct query; cbn [facade_call request_of] in *;
    [ unfold Facade.coro_get_block_header_by_hash
    | unfold Facade.coro_get_block_body_by_hash
    | unfold Facade.coro_get_receipts
    | unfold Facade.coro_get_account
    | unfold Facade.coro_get_contract_code ];
    cbn; unfold coro_bind, request; rewrite Hanswer;
    unfold Facade._pass_or_raise; rewrite Herror; reflexivity.
Qed.

Lemma facade_returns (self : FacadeT) (query : Query) (history : History)
  (val : option PyObj) :
  answer (Facade.event_bus self) history (request_of query) TO =
    Returned (call_cls (expected_response_type (request_of (Token := Token) query)) val None) ->
  fst (facade_call TO self query history) = Returned val.
Proof.
  intros Hanswer.
  destruct query; cbn [facade_call request_of] in *;
    [ unfold Facade.coro_get_block_header_by_hash
    | unfold Facade.coro_get_block_body_by_hash
    | unfold Facade.coro_get_receipts
    | unfold Facade.coro_get_account
    | unfold Facade.coro_get_contract_code ];
    cbn; unfold coro_bind, request; rewrite Hanswer; reflexivity.
Qed.

Lemma answer_connected (chain : Chain) (backlog : list Request) (new_token : History -> Token)
  (history : History) (item : Request) :
  answer (consumer_endpoint TO Token_eq_dec chain backlog new_token) history item TO =
  correlate Token_eq_dec (with_origin (new_token history) item)
    (relay_published chain (backlog ++ [with_origin (new_token history) item])).
Proof.
  cbn [answer consumer_endpoint]. now rewrite BroadcastConfig_eqb_refl.
Qed.

Lemma replies_In (chain : Chain) (events : list Request) (call : BusCall) :
  In call (replies chain events) ->
  exists event, In event events /\ responds chain event call.
Proof.
  destruct (replies_prefix chain events) as (answered & rest & Heq & Hall).
  intros Hin. subst events.
  induction Hall as [|event call' answered' published Hresp _ IH]; [contradiction|].
  destruct Hin as [Hin|Hin].
  - subst call'. exists event. split; [now left|exact Hresp].
  - destruct (IH Hin) as (ev & Hev & Hres). exists ev. split; [now right|exact Hres].
Qed.

Lemma relay_published_In (chain : Chain) (delivered : list Request) (call : BusCall) :
  In call (relay_published chain delivered) ->
  exists event, In event delivered /\ responds chain event call.
Proof.
  rewrite relay_published_eq. intros Hin. apply in_flat_map in Hin.
  destruct Hin as (cls & _ & Hin). apply replies_In in Hin.
  destruct Hin as (event & Hev & Hres). exists event. split; [|exact Hres].
  apply stream_class in Hev. exact (proj1 Hev).
Qed.

Lemma replies_In_resolved (chain : Chain) (events : list Request) (event : Request)
  (val : option PyObj) (err : option Exception) :
  resolves chain events ->
  In event events ->
  carries (provider_call chain (query_of event)) val err ->
  In (broadcast_call (call_cls (expected_response_type event) val err) (broadcast_config event))
    (replies chain events).
Proof.
  intros Hres Hin Hcarries.
  induction events as [|ev rest IH]; [contradiction|].
  assert (Hrest : resolves chain rest) by (intros ev' Hin'; apply Hres; now right).
  pose proof (Hres ev (or_introl eq_refl)) as Hev.
  cbn [replies]. destruct Hin as [Heq|Hin].
  - subst ev. inversion Hcarries as [v Hcall|e Hcall]; subst; now left.
  - destruct (provider_call chain (query_of ev)); [right; auto|right; auto|congruence].
Qed.

Lemma relay_published_resolved (chain : Chain) (delivered : list Request) (event : Request)
  (val : option PyObj) (err : option Exception) :
  resolves chain (stream (relay_ep delivered) (request_type event)) ->
  In event delivered ->
  carries (provider_call chain (query_of event)) val err ->
  In (broadcast_call (call_cls (expected_response_type event) val err) (broadcast_config event))
    (relay_published chain delivered).
Proof.
  intros Hres Hin Hcarries. rewrite relay_published_eq. apply in_flat_map.
  exists (request_type event). split; [apply request_classes_complete|].
  apply replies_In_resolved; auto. apply stream_class. now split.
Qed.

Lemma resolves_app (chain : Chain) (events events' : list Request) :
  resolves chain events -> resolves chain events' -> resolves chain (events ++ events').
Proof.
  intros H1 H2 ev Hin. apply in_app_or in Hin. destruct Hin; auto.
Qed.

Lemma loop_end_pending (chain : Chain) (events : list Request) (event : Request) :
  In event events ->
  provider_call chain (query_of event) = Pending ->
  loop_end chain events = Pending.
Proof.
  intros Hin Hpending. induction events as [|ev rest IH]; [contradiction|].
  cbn [loop_end]. destruct Hin as [Heq|Hin].
  - subst ev. now rewrite Hpending.
  - destruct (provider_call chain (query_of ev)); auto.
Qed.

(** The call of the facade, with a relay at the other end of the bus, comes
    to what the provider does with the query. *)
Lemma round_trip (chain : Chain) (backlog : list Request) (new_token : History -> Token)
  (query : Query) (history : History) :
  (forall ev, In ev backlog -> broadcast_config ev <> Some (new_token history)) ->
  resolves chain
    (stream (relay_ep backlog) (request_type (request_of (Token := Token) query))) ->
  fst (facade_call TO (Facade.__init__ (consumer_endpoint TO Token_eq_dec chain backlog new_token))
         query history) =
  outcome_map Some (provider_call chain query).
Proof.
  intros Hfresh Hres.
  set (event := with_origin (new_token history) (request_of query)).
  assert (Hfresh' : forall ev, In ev backlog -> broadcast_config ev <> broadcast_config event).
  { intros ev Hin. unfold event. rewrite broadcast_config_with_origin. now apply Hfresh. }
  assert (Hquery : query_of event = query).
  { unfold event. now rewrite query_of_with_origin, query_of_request_of. }
  assert (Hexp : expected_response_type event = expected_response_type (request_of (Token := Token) query)).
  { apply expected_response_type_with_origin. }
  assert (Hcls : request_type event = request_type (request_of (Token := Token) query)).
  { apply request_type_with_origin. }
  pose proof (answer_connected chain backlog new_token history (request_of query)) as Hanswer.
  fold event in Hanswer. rewrite relay_published_eq in Hanswer.
  destruct (provider_call chain query) as [v|e|] eqn:Hcall; cbn [outcome_map].
  - rewrite (@correlate_published chain backlog event Hfresh' request_classes (Some v) None)
      in Hanswer.
    + rewrite Hexp in Hanswer. now apply facade_returns.
    + apply request_classes_complete.
    + now rewrite Hcls.
    + rewrite Hquery, Hcall. constructor.
  - rewrite (@correlate_published chain backlog event Hfresh' request_classes None (Some e))
      in Hanswer.
    + eapply facade_raises; [exact Hanswer|apply error_call_cls].
    + apply request_classes_complete.
    + now rewrite Hcls.
    + rewrite Hquery, Hcall. constructor.
  - rewrite correlate_none in Hanswer.
    + now apply facade_pending.
    + apply pending_no_reply; [exact Hfresh'|now rewrite Hquery].
Qed.

(** ** The properties of the specification *)

(** C1: for every kind of query, a successful result of the provider
    round-trips unchanged.  When the provider returns [v] for the input of
    the request, the relay publishes, to the origin of the request, the
    response of the bound class with payload [v] and no error, and the call
    of the facade returns exactly [v], having sent its one request.  The bus
    gives the request a token that no earlier request carries, and the
    provider resolves the earlier requests of the same kind. *)
Theorem C1_success_round_trip
  (chain : Chain) (backlog : list Request) (new_token : History -> Token)
  (query : Query) (history : History) (v : PyObj) :
  (forall ev, In ev backlog -> broadcast_config ev <> Some (new_token history)) ->
  resolves chain
    (stream (relay_ep backlog) (request_type (request_of (Token := Token) query))) ->
  provider_call chain query = Returned v ->
  In (broadcast_call
        (call_cls (expected_response_type (request_of (Token := Token) query)) (Some v) None)
        (Some (new_token history)))
     (relay_published chain
        (backlog ++ [with_origin (new_token history) (request_of query)])) /\
  facade_call TO (Facade.__init__ (consumer_endpoint TO Token_eq_dec chain backlog new_token))
    query history =
  (Returned (Some v), history ++ [request_call (request_of query) TO]).
Proof.
  intros Hfresh Hres Hcall. split.
  - set (event := with_origin (new_token history) (request_of query)).
    rewrite <- (expected_response_type_with_origin (new_token history)).
    rewrite <- (broadcast_config_with_origin (new_token history) (request_of query)).
    fold event. apply relay_published_resolved.
    + unfold event. rewrite request_type_with_origin, stream_relay_app.
      apply resolves_app; [exact Hres|].
      intros ev Hin.
      destruct (RequestType_eqb _ _); [|contradiction].
      destruct Hin as [<-|[]].
      rewrite query_of_with_origin, query_of_request_of. congruence.
    + apply in_or_app. right. now left.
    + unfold event. rewrite query_of_with_origin, query_of_request_of, Hcall. constructor.
  - rewrite (surjective_pairing (facade_call _ _ _ _)).
    rewrite facade_history, round_trip by assumption.
    now rewrite Hcall.
Qed.

(** C2: for every kind of query, a failure of the provider round-trips as
    a failure.  When the provider raises [e], the relay publishes, to the
    origin of the request, the response of the bound class whose error is
    [e] and whose payload is unset, and the call of the facade raises [e]:
    it returns no value at all. *)
Theorem C2_failure_round_trip
  (chain : Chain) (backlog : list Request) (new_token : History -> Token)
  (query : Query) (history : History) (e : Exception) :
  (forall ev, In ev backlog -> broadcast_config ev <> Some (new_token history)) ->
  resolves chain
    (stream (relay_ep backlog) (request_type (request_of (Token := Token) query))) ->
  provider_call chain query = Raised e ->
  In (broadcast_call
        (call_cls (expected_response_type (request_of (Token := Token) query)) None (Some e))
        (Some (new_token history)))
     (relay_published chain
        (backlog ++ [with_origin (new_token history) (request_of query)])) /\
  facade_call TO (Facade.__init__ (consumer_endpoint TO Token_eq_dec chain backlog new_token))
    query history =
  (Raised e, history ++ [request_call (request_of query) TO]) /\
  (forall val,
     fst (facade_call TO
            (Facade.__init__ (consumer_endpoint TO Token_eq_dec chain backlog new_token))
            query history) <> Returned val).
Proof.
  intros Hfresh Hres Hcall.
  assert (Hfacade :
    facade_call TO (Facade.__init__ (consumer_endpoint TO Token_eq_dec chain backlog new_token))
      query history =
    (Raised e, history ++ [request_call (request_of query) TO])).
  { rewrite (surjective_pairing (facade_call _ _ _ _)).
    rewrite facade_history, round_trip by assumption.
    now rewrite Hcall. }
  split; [|split; [exact Hfacade|rewrite Hfacade; discriminate]].
  set (event := with_origin (new_token history) (request_of query)).
  rewrite <- (expected_response_type_with_origin (new_token history)).
  rewrite <- (broadcast_config_with_origin (new_token history) (request_of query)).
  fold event. apply relay_published_resolved.
  - unfold event. rewrite request_type_with_origin, stream_relay_app.
    apply resolves_app; [exact Hres|].
    intros ev Hin.
    destruct (RequestType_eqb _ _); [|contradiction].
    destruct Hin as [<-|[]].
    rewrite query_of_with_origin, query_of_request_of. congruence.
  - apply in_or_app. right. now left.
  - unfold event. rewrite query_of_with_origin, query_of_request_of, Hcall. constructor.
Qed.

(** C3: in the loop of every kind of query, a failure of the provider is
    captured as data and not propagated: the loop never ends by a raise.
    When the provider resolves the requests of the stream, the loop
    publishes one response for each of them, in order, for a failure as
    for a success, and ends only when the stream does.  A failure on one
    request is published as a response with the error and no payload, and
    the requests after it are consumed and answered all the same. *)
Theorem C3_relay_loop_captures_failures
  (cls : RequestType) (self : RelayT) (history : History) :
  (forall e, fst (handler_of cls self history) <> Raised e) /\
  (resolves (Relay.chain self) (stream (Relay.event_bus self) cls) ->
   exists published,
     handler_of cls self history = (Returned tt, history ++ published) /\
     Forall2 (responds (Relay.chain self)) (stream (Relay.event_bus self) cls) published) /\
  (forall before event after e,
     stream (Relay.event_bus self) cls = before ++ event :: after ->
     resolves (Relay.chain self) (before ++ after) ->
     provider_call (Relay.chain self) (query_of event) = Raised e ->
     exists answers_before answers_after,
       handler_of cls self history =
       (Returned tt,
        history ++ answers_before ++
        broadcast_call (call_cls (expected_response_type event) None (Some e))
          (broadcast_config event) :: answers_after) /\
       Forall2 (responds (Relay.chain self)) before answers_before /\
       Forall2 (responds (Relay.chain self)) after answers_after).
Proof.
  rewrite handler_run. cbn [fst]. split; [|split].
  - intros e. apply loop_end_not_raised.
  - intros Hres. exists (replies (Relay.chain self) (stream (Relay.event_bus self) cls)).
    split; [now rewrite loop_end_resolves|now apply replies_resolves].
  - intros before event after e Hstream Hres Hcall. rewrite Hstream.
    assert (Hbefore : resolves (Relay.chain self) before)
      by (intros ev Hin; apply Hres, in_or_app; now left).
    assert (Hafter : resolves (Relay.chain self) after)
      by (intros ev Hin; apply Hres, in_or_app; now right).
    assert (Hall : resolves (Relay.chain self) (before ++ event :: after)).
    { apply resolves_app; [exact Hbefore|].
      intros ev [<-|Hin]; [congruence|now apply Hafter]. }
    exists (replies (Relay.chain self) before), (replies (Relay.chain self) after).
    split; [|split; now apply replies_resolves].
    rewrite loop_end_resolves, replies_app by assumption.
    cbn [replies]. now rewrite Hcall.
Qed.

(** C4: [expected_response_type] depends on the class of the request only,
    not on its fields, and binds the five request classes one to one to the
    five response classes: header request to [BlockHeaderResponse], body
    request to [BlockBodyResponse], receipts request to [ReceiptsResponse],
    account request to [AccountResponse] and contract-code request to
    [BytesResponse]. *)
Theorem C4_expected_response_type_binding :
  (forall event event' : Request,
     request_type event = request_type event' ->
     expected_response_type event = expected_response_type event') /\
  (forall h o, expected_response_type (GetBlockHeaderByHashRequest h o : Request)
               = BlockHeaderResponse_cls) /\
  (forall h o, expected_response_type (GetBlockBodyByHashRequest h o : Request)
               = BlockBodyResponse_cls) /\
  (forall h o, expected_response_type (GetReceiptsRequest h o : Request)
               = ReceiptsResponse_cls) /\
  (forall h a o, expected_response_type (GetAccountRequest h a o : Request)
                 = AccountResponse_cls) /\
  (forall h a o, expected_response_type (GetContractCodeRequest h a o : Request)
                 = BytesResponse_cls) /\
  (forall event event' : Request,
     expected_response_type event = expected_response_type event' ->
     request_type event = request_type event') /\
  (forall cls : ResponseType, exists event : Request, expected_response_type event = cls).
Proof.
  repeat split; try reflexivity.
  - intros [] []; cbn; congruence.
  - intros [] []; cbn; congruence.
  - intros [].
    + now exists (GetBlockHeaderByHashRequest [] None).
    + now exists (GetBlockBodyByHashRequest [] None).
    + now exists (GetReceiptsRequest [] None).
    + now exists (GetAccountRequest [] [] None).
    + now exists (GetContractCodeRequest [] [] None).
Qed.

(** C5: every response that the relay publishes is an instance of exactly
    the response class bound to the request that produced it.  The loop of
    a request class publishes nothing but responses to delivered requests
    of its own class, each of the class bound to its request and of no
    class bound to a request of another class; and whatever the started
    relay publishes is such a response to one of the delivered
    requests. *)
Theorem C5_response_class_bound_to_request :
  (forall (cls : RequestType) (self : RelayT) (history : History),
     exists published,
       snd (handler_of cls self history) = history ++ published /\
       forall call, In call published ->
         exists event item,
           call = broadcast_call item (broadcast_config event) /\
           In event (incoming (Relay.event_bus self)) /\
           request_type event = cls /\
           response_type item = expected_response_type event /\
           (forall event' : Request,
              request_type event' <> cls ->
              response_type item <> expected_response_type event')) /\
  (forall (chain : Chain) (delivered : list Request) (call : BusCall),
     In call (relay_published chain delivered) ->
     exists event item,
       call = broadcast_call item (broadcast_config event) /\
       In event delivered /\
       response_type item = expected_response_type event).
Proof.
  split.
  - intros cls self history. rewrite handler_run. cbn [snd].
    eexists. split; [reflexivity|].
    intros call Hin. apply replies_In in Hin.
    destruct Hin as (event & Hev & val & err & _ & ->).
    apply stream_class in Hev. destruct Hev as [Hev Hcls].
    exists event, (call_cls (expected_response_type event) val err).
    rewrite response_type_call_cls. repeat split; auto.
    intros event' Hother Hsame. apply Hother. rewrite <- Hcls.
    destruct event, event'; cbn in *; congruence.
  - intros chain delivered call Hin. apply relay_published_In in Hin.
    destruct Hin as (event & Hev & val & err & _ & ->).
    exists event, (call_cls (expected_response_type event) val err).
    now rewrite response_type_call_cls.
Qed.

(** C8: every call of the facade, for every kind of query, constructs the
    request of the bound class from its arguments and calls the bus exactly
    once: one request, sent to the one fixed configuration of the provider
    side, whatever the history of the endpoint and whatever the bus
    answers. *)
Theorem C8_one_request_per_call (self : FacadeT) (history : History) :
  (forall h,
     snd (Facade.coro_get_block_header_by_hash TO self h history) =
     history ++ [request_call (GetBlockHeaderByHashRequest h None) TO]) /\
  (forall h,
     snd (Facade.coro_get_block_body_by_hash TO self h history) =
     history ++ [request_call (GetBlockBodyByHashRequest h None) TO]) /\
  (forall h,
     snd (Facade.coro_get_receipts TO self h history) =
     history ++ [request_call (GetReceiptsRequest h None) TO]) /\
  (forall h a,
     snd (Facade.coro_get_account TO self h a history) =
     history ++ [request_call (GetAccountRequest h a None) TO]) /\
  (forall h a,
     snd (Facade.coro_get_contract_code TO self h a history) =
     history ++ [request_call (GetContractCodeRequest h a None) TO]).
Proof.
  repeat split; intros.
  - apply (facade_history self (GetBlockHeaderByHash h)).
  - apply (facade_history self (GetBlockBodyByHash h)).
  - apply (facade_history self (GetReceipts h)).
  - apply (facade_history self (GetAccount h a)).
  - apply (facade_history self (GetContractCode h a)).
Qed.

(** C9: calls of different kinds complete independently.  Let the provider
    never resolve the operation of one kind, and let the relay hold
    requests of that kind among those delivered to it.  The loop of that
    kind stays suspended; yet a call of the facade for a query of any other
    kind completes, with the outcome the provider has for it, as long as
    the provider resolves the earlier requests of the kind of the call. *)
Theorem C9_kinds_complete_independently
  (chain : Chain) (backlog : list Request) (new_token : History -> Token)
  (blocked : RequestType) (query : Query) (history : History) :
  (forall ev : Request,
     request_type ev = blocked -> provider_call chain (query_of ev) = Pending) ->
  (exists ev, In ev backlog /\ request_type ev = blocked) ->
  request_type (request_of (Token := Token) query) <> blocked ->
  (forall ev, In ev backlog -> broadcast_config ev <> Some (new_token history)) ->
  resolves chain
    (stream (relay_ep backlog) (request_type (request_of (Token := Token) query))) ->
  provider_call chain query <> Pending ->
  fst (handler_of blocked
         (Relay.__init__ chain
            (relay_ep (backlog ++ [with_origin (new_token history) (request_of query)])))
         []) = Pending /\
  fst (facade_call TO (Facade.__init__ (consumer_endpoint TO Token_eq_dec chain backlog new_token))
         query history) <> Pending /\
  fst (facade_call TO (Facade.__init__ (consumer_endpoint TO Token_eq_dec chain backlog new_token))
         query history) = outcome_map Some (provider_call chain query).
Proof.
  intros Hblocked (stuck & Hstuck & Hcls) Hother Hfresh Hres Hcall.
  split; [|split].
  - rewrite handler_run. cbn [fst Relay.chain Relay.event_bus Relay.__init__].
    apply loop_end_pending with (event := stuck); [|now apply Hblocked].
    apply stream_class. split; [|exact Hcls].
    cbn [incoming relay_endpoint]. apply in_or_app. now left.
  - rewrite round_trip by assumption.
    destruct (provider_call chain query); cbn; congruence.
  - now apply round_trip.
Qed.

(** C10: the facade takes a response with no error for a success, whatever
    its payload.  [_pass_or_raise] passes every response whose error is
    [None]; so when the bus correlates a response of the bound class with
    error [None] and payload [None], the call returns [None] and raises
    nothing, and likewise for any other payload. *)
Theorem C10_no_error_is_success
  (self : FacadeT) (query : Query) (history : History) :
  (forall response : Response,
     error response = None ->
     Facade._pass_or_raise self response history = (Returned response, history)) /\
  (answer (Facade.event_bus self) history (request_of query) TO =
     Returned (call_cls (expected_response_type (request_of (Token := Token) query)) None None) ->
   facade_call TO self query history =
   (Returned None, history ++ [request_call (request_of query) TO])) /\
  (forall val,
     answer (Facade.event_bus self) history (request_of query) TO =
       Returned (call_cls (expected_response_type (request_of (Token := Token) query)) val None) ->
     facade_call TO self query history =
     (Returned val, history ++ [request_call (request_of query) TO])).
Proof.
  assert (Hval : forall val,
    answer (Facade.event_bus self) history (request_of query) TO =
      Returned (call_cls (expected_response_type (request_of (Token := Token) query)) val None) ->
    facade_call TO self query history =
    (Returned val, history ++ [request_call (request_of query) TO])).
  { intros val Hanswer. rewrite (surjective_pairing (facade_call _ _ _ _)).
    rewrite facade_history. f_equal. now apply facade_returns. }
  split; [|split; [apply Hval|exact Hval]].
  intros response Herror. unfold Facade._pass_or_raise. now rewrite Herror.
Qed.

End BridgeFacts.

(** ** The relay and the routing data *)

Section Addressing.

Variables BlockHeader BlockBody Receipt Account Token Token' : Type.
Variable f : Token -> Token'.

Local Abbreviation Chain := (BaseLightPeerChain BlockHeader BlockBody Receipt Account).
Local Abbreviation relay_ep := (@relay_endpoint BlockHeader BlockBody Receipt Account Token).
Local Abbreviation relay_ep' := (@relay_endpoint BlockHeader BlockBody Receipt Account Token').
Local Abbreviation rename := (@map_call BlockHeader BlockBody Receipt Account Token Token' f).

Lemma request_type_map_origin (event : Request Token) :
  request_type (map_origin f event) = request_type event.
Proof. destruct event; reflexivity. Qed.

Lemma query_of_map_origin (event : Request Token) :
  query_of (map_origin f event) = query_of event.
Proof. destruct event; reflexivity. Qed.

Lemma expected_response_type_map_origin (event : Request Token) :
  expected_response_type (map_origin f event) = expected_response_type event.
Proof. destruct event; reflexivity. Qed.

Lemma broadcast_config_map_origin (event : Request Token) :
  broadcast_config (map_origin f event) = option_map f (broadcast_config event).
Proof. destruct event; reflexivity. Qed.

Lemma stream_map_origin (delivered : list (Request Token)) (cls : RequestType) :
  stream (relay_ep' (map (map_origin f) delivered)) cls =
  map (map_origin f) (stream (relay_ep delivered) cls).
Proof.
  unfold stream. cbn [incoming relay_endpoint].
  induction delivered as [|event rest IH]; [reflexivity|].
  cbn [map filter]. rewrite request_type_map_origin, IH.
  now destruct (RequestType_eqb (request_type event) cls).
Qed.

Lemma replies_map_origin (chain : Chain) (events : list (Request Token)) :
  replies chain (map (map_origin f) events) = map rename (replies chain events).
Proof.
  induction events as [|event rest IH]; [reflexivity|].
  cbn [map replies].
  rewrite query_of_map_origin, expected_response_type_map_origin,
    broadcast_config_map_origin, IH.
  now destruct (provider_call chain (query_of event)).
Qed.

Lemma loop_end_map_origin (chain : Chain) (events : list (Request Token)) :
  loop_end chain (map (map_origin f) events) = loop_end chain events.
Proof.
  induction events as [|event rest IH]; [reflexivity|].
  cbn [map loop_end]. rewrite query_of_map_origin, IH. reflexivity.
Qed.

(** C6: every response is published to the configuration that its
    originating request carries, for an error as for a success: the
    publications of a loop answer, one for one, the requests it has
    consumed, each addressed with [broadcast_config] of its request.  And
    the relay does not look into the routing data: renaming the tokens of
    the delivered requests renames the addresses of the publications in the
    same way and changes nothing else of what a loop, or the whole relay,
    does. *)
Theorem C6_response_addressed_to_origin :
  (forall (cls : RequestType) (self : Relay.t BlockHeader BlockBody Receipt Account Token)
          (history : History BlockHeader BlockBody Receipt Account Token),
     exists answered rest published,
       stream (Relay.event_bus self) cls = answered ++ rest /\
       snd (handler_of cls self history) = history ++ published /\
       Forall2 (responds (Relay.chain self)) answered published /\
       Forall2 (fun event call =>
                  exists item, call = broadcast_call item (broadcast_config event))
         answered published /\
       (resolves (Relay.chain self) (stream (Relay.event_bus self) cls) -> rest = [])) /\
  (forall (cls : RequestType) (chain : Chain) (delivered : list (Request Token))
          (history : History BlockHeader BlockBody Receipt Account Token),
     handler_of cls (Relay.__init__ chain (relay_ep' (map (map_origin f) delivered)))
       (map rename history) =
     (fst (handler_of cls (Relay.__init__ chain (relay_ep delivered)) history),
      map rename (snd (handler_of cls (Relay.__init__ chain (relay_ep delivered)) history)))) /\
  (forall (chain : Chain) (delivered : list (Request Token)),
     relay_published chain (map (map_origin f) delivered) =
     map rename (relay_published chain delivered)).
Proof.
  split.
  - intros cls self history. rewrite handler_run. cbn [snd].
    set (events := stream (Relay.event_bus self) cls).
    assert (Hprefix : exists answered rest,
      events = answered ++ rest /\
      Forall2 (responds (Relay.chain self)) answered (replies (Relay.chain self) events) /\
      (resolves (Relay.chain self) events -> rest = [])).
    { clearbody events. induction events as [|event tl IH].
      - exists [], []. cbn. repeat split; constructor.
      - destruct IH as (answered & rest & Heq & Hall & Hrest). cbn [replies].
        destruct (provider_call (Relay.chain self) (query_of event)) as [v|e|] eqn:Hcall.
        + exists (event :: answered), rest. split; [cbn; congruence|]. split.
          * constructor; [|exact Hall].
            exists (Some v), None. rewrite Hcall. split; [constructor|reflexivity].
          * intros Hres. apply Hrest. intros ev Hin. apply Hres. now right.
        + exists (event :: answered), rest. split; [cbn; congruence|]. split.
          * constructor; [|exact Hall].
            exists None, (Some e). rewrite Hcall. split; [constructor|reflexivity].
          * intros Hres. apply Hrest. intros ev Hin. apply Hres. now right.
        + exists [], (event :: tl). split; [reflexivity|]. split; [constructor|].
          intros Hres. now destruct (Hres event (or_introl eq_refl)). }
    destruct Hprefix as (answered & rest & Heq & Hall & Hrest).
    exists answered, rest, (replies (Relay.chain self) events).
    repeat split; auto.
    clear Heq Hrest. induction Hall as [|event call ? ? Hresp _ IH]; constructor; auto.
    destruct Hresp as (val & err & _ & ->). eexists. reflexivity.
  - split.
    + intros cls chain delivered history. rewrite !handler_run.
      cbn [fst snd Relay.chain Relay.event_bus Relay.__init__].
      now rewrite stream_map_origin, replies_map_origin, loop_end_map_origin, map_app.
    + intros chain delivered. rewrite !relay_published_eq.
      cbn [request_classes flat_map].
      rewrite !map_app, !stream_map_origin, !replies_map_origin. reflexivity.
Qed.

End Addressing.

(** ** The scenario, run *)

Example scenario_success :
  facade_call scenario_networking scenario_facade (GetBlockHeaderByHash hash_AA) [] =
  (Returned (Some (obj_BlockHeader "H"%string)),
   [request_call (GetBlockHeaderByHashRequest hash_AA None) scenario_networking]).
Proof. vm_compute. reflexivity. Qed.

Example scenario_failure :
  facade_call scenario_networking scenario_facade (GetBlockHeaderByHash hash_BB) [] =
  (Raised (Failure "not found"),
   [request_call (GetBlockHeaderByHashRequest hash_BB None) scenario_networking]).
Proof. vm_compute. reflexivity. Qed.

Example scenario_relay_publishes :
  relay_published scenario_chain (incoming (Relay.event_bus scenario_relay)) =
  [broadcast_call (BlockHeaderResponse (Some (obj_BlockHeader "H"%string)) None) (Some 3);
   broadcast_call (BlockHeaderResponse None (Some (Failure "not found"))) (Some 4);
   broadcast_call (BlockHeaderResponse (Some (obj_BlockHeader "H"%string)) None) (Some 6);
   broadcast_call (BytesResponse (Some (obj_bytes some_address)) None) (Some 5)].
Proof. vm_compute. reflexivity. Qed.

Lemma C1_witness :
  provider_call scenario_chain (GetBlockHeaderByHash hash_BB) <> Pending /\
  provider_call scenario_chain (GetBlockHeaderByHash hash_AA) =
    Returned (obj_BlockHeader "H"%string) /\
  facade_call scenario_networking scenario_facade (GetBlockHeaderByHash hash_AA) [] =
  (Returned (Some (obj_BlockHeader "H"%string)),
   [request_call (GetBlockHeaderByHashRequest hash_AA None) scenario_networking]).
Proof.
  split; [vm_compute; discriminate|].
  split; [vm_compute; reflexivity|].
  apply (@C1_success_round_trip string string string string nat scenario_networking
           Nat.eq_dec scenario_chain scenario_backlog scenario_token
           (GetBlockHeaderByHash hash_AA) [] (obj_BlockHeader "H"%string)).
  - scenario_fresh.
  - intros ev [<-|[]]. vm_compute. discriminate.
  - vm_compute. reflexivity.
Defined.

Lemma C2_witness :
  provider_call scenario_chain (GetBlockHeaderByHash hash_BB) = Raised (Failure "not found") /\
  facade_call scenario_networking scenario_facade (GetBlockHeaderByHash hash_BB) [] =
  (Raised (Failure "not found"),
   [request_call (GetBlockHeaderByHashRequest hash_BB None) scenario_networking]).
Proof.
  split; [vm_compute; reflexivity|].
  apply (@C2_failure_round_trip string string string string nat scenario_networking
           Nat.eq_dec scenario_chain scenario_backlog scenario_token
           (GetBlockHeaderByHash hash_BB) [] (Failure "not found")).
  - scenario_fresh.
  - intros ev [<-|[]]. vm_compute. discriminate.
  - vm_compute. reflexivity.
Defined.

Lemma C3_witness :
  resolves scenario_chain
    (stream (Relay.event_bus scenario_relay) GetBlockHeaderByHashRequest_cls) /\
  (exists published,
     handler_of GetBlockHeaderByHashRequest_cls scenario_relay [] =
     (Returned tt, [] ++ published) /\
     Forall2 (responds scenario_chain)
       (stream (Relay.event_bus scenario_relay) GetBlockHeaderByHashRequest_cls) published) /\
  (exists answers_before answers_after,
     handler_of GetBlockHeaderByHashRequest_cls scenario_relay [] =
     (Returned tt,
      [] ++ answers_before ++
      broadcast_call (BlockHeaderResponse None (Some (Failure "not found"))) (Some 4)
        :: answers_after) /\
     Forall2 (responds scenario_chain)
       [GetBlockHeaderByHashRequest hash_AA (Some 3)] answers_before /\
     Forall2 (responds scenario_chain)
       [GetBlockHeaderByHashRequest hash_AA (Some 6)] answers_after).
Proof.
  assert (Hres : resolves scenario_chain
            (stream (Relay.event_bus scenario_relay) GetBlockHeaderByHashRequest_cls))
    by (intros ev [<-|[<-|[<-|[]]]]; vm_compute; discriminate).
  split; [exact Hres|]. split.
  - exact (proj1 (proj2 (C3_relay_loop_captures_failures
                           GetBlockHeaderByHashRequest_cls scenario_relay [])) Hres).
  - apply (proj2 (proj2 (C3_relay_loop_captures_failures
                           GetBlockHeaderByHashRequest_cls scenario_relay []))
             [GetBlockHeaderByHashRequest hash_AA (Some 3)]
             (GetBlockHeaderByHashRequest hash_BB (Some 4))
             [GetBlockHeaderByHashRequest hash_AA (Some 6)]
             (Failure "not found")).
    + vm_compute. reflexivity.
    + intros ev [<-|[<-|[]]]; vm_compute; discriminate.
    + vm_compute. reflexivity.
Defined.

Lemma C4_witness :
  request_type (GetAccountRequest hash_AA some_address (Some 7)) =
    request_type (GetAccountRequest hash_BB [] (@None nat)) /\
  expected_response_type (GetAccountRequest hash_AA some_address (Some 7)) =
    expected_response_type (GetAccountRequest hash_BB [] (@None nat)) /\
  expected_response_type (GetAccountRequest hash_AA some_address (Some 7)) = AccountResponse_cls.
Proof.
  split; [reflexivity|]. split.
  - apply (proj1 (C4_expected_response_type_binding nat)). reflexivity.
  - apply (proj1 (proj2 (proj2 (proj2 (proj2 (C4_expected_response_type_binding nat)))))).
Defined.

Lemma C5_witness :
  In (broadcast_call (BlockHeaderResponse None (Some (Failure "not found"))) (Some 4))
     (relay_published scenario_chain (incoming (Relay.event_bus scenario_relay))) /\
  exists (event : Request nat) (item : Response string string string string),
    broadcast_call (BlockHeaderResponse None (Some (Failure "not found"))) (Some 4) =
      broadcast_call item (broadcast_config event) /\
    In event (incoming (Relay.event_bus scenario_relay)) /\
    response_type item = expected_response_type event.
Proof.
  assert (Hin :
    In (broadcast_call (BlockHeaderResponse None (Some (Failure "not found"))) (Some 4))
       (relay_published scenario_chain (incoming (Relay.event_bus scenario_relay))))
    by (vm_compute; right; left; reflexivity).
  split; [exact Hin|].
  exact (proj2 (C5_response_class_bound_to_request string string string string nat)
           scenario_chain (incoming (Relay.event_bus scenario_relay)) _ Hin).
Defined.

Lemma C6_witness :
  resolves scenario_chain
    (stream (Relay.event_bus scenario_relay) GetBlockHeaderByHashRequest_cls) /\
  exists answered published,
    stream (Relay.event_bus scenario_relay) GetBlockHeaderByHashRequest_cls = answered /\
    snd (handler_of GetBlockHeaderByHashRequest_cls scenario_relay []) = [] ++ published /\
    Forall2 (fun event call =>
               exists item, call = broadcast_call item (broadcast_config event))
      answered published.
Proof.
  assert (Hres : resolves scenario_chain
            (stream (Relay.event_bus scenario_relay) GetBlockHeaderByHashRequest_cls))
    by (intros ev [<-|[<-|[<-|[]]]]; vm_compute; discriminate).
  split; [exact Hres|].
  destruct (proj1 (@C6_response_addressed_to_origin string string string string nat nat S)
              GetBlockHeaderByHashRequest_cls scenario_relay [])
    as (answered & rest & published & Hstream & Hpublished & _ & Haddressed & Hrest).
  exists answered, published.
  rewrite (Hrest Hres), app_nil_r in Hstream. auto.
Defined.

Lemma C9_witness :
  In (GetAccountRequest hash_AA some_address (Some 1)) scenario_backlog /\
  provider_call scenario_chain (GetAccount hash_AA some_address) = Pending /\
  fst (handler_of GetAccountRequest_cls
         (Relay.__init__ scenario_chain
            (relay_endpoint
               (scenario_backlog ++
                [with_origin (scenario_token []) (request_of (GetBlockHeaderByHash hash_AA))])))
         []) = Pending /\
  fst (facade_call scenario_networking scenario_facade (GetBlockHeaderByHash hash_AA) [])
    <> Pending /\
  fst (facade_call scenario_networking scenario_facade (GetBlockHeaderByHash hash_AA) []) =
    outcome_map Some (provider_call scenario_chain (GetBlockHeaderByHash hash_AA)).
Proof.
  split; [left; reflexivity|].
  split; [reflexivity|].
  apply (@C9_kinds_complete_independently string string string string nat scenario_networking
           Nat.eq_dec scenario_chain scenario_backlog scenario_token
           GetAccountRequest_cls (GetBlockHeaderByHash hash_AA) []).
  - intros ev Hcls. destruct ev; try discriminate Hcls. reflexivity.
  - exists (GetAccountRequest hash_AA some_address (Some 1)).
    split; [left; reflexivity|reflexivity].
  - discriminate.
  - scenario_fresh.
  - intros ev [<-|[]]. vm_compute. discriminate.
  - vm_compute. discriminate.
Defined.

Lemma C10_witness :
  answer scenario_empty_endpoint [] (request_of (GetAccount hash_AA some_address))
    scenario_networking =
    Returned (AccountResponse None None) /\
  facade_call scenario_networking (Facade.__init__ scenario_empty_endpoint)
    (GetAccount hash_AA some_address) [] =
  (Returned None,
   [request_call (GetAccountRequest hash_AA some_address None) scenario_networking]).
Proof.
  split; [reflexivity|].
  apply (proj1 (proj2 (@C10_no_error_is_success string string string string nat
                         scenario_networking (Facade.__init__ scenario_empty_endpoint)
                         (GetAccount hash_AA some_address) []))).
  reflexivity.
Defined.

(** ** More on the facade and the relay *)

Section BridgeMore.

Variables BlockHeader BlockBody Receipt Account Token : Type.

Local Abbreviation Chain := (BaseLightPeerChain BlockHeader BlockBody Receipt Account).
Local Abbreviation History := (History BlockHeader BlockBody Receipt Account Token).
Local Abbreviation Response := (Response BlockHeader BlockBody Receipt Account).
Local Abbreviation Request := (Request Token).
Local Abbreviation RelayT := (Relay.t BlockHeader BlockBody Receipt Account Token).
Local Abbreviation FacadeT := (Facade.t BlockHeader BlockBody Receipt Account Token).
Local Abbreviation relay_ep := (@relay_endpoint BlockHeader BlockBody Receipt Account Token).
Local Abbreviation Endpoint := (TrinityEventBusEndpoint BlockHeader BlockBody Receipt Account Token).
Local Abbreviation PyObj := (PyObj BlockHeader BlockBody Receipt Account).

Variable TO_NETWORKING_BROADCAST_CONFIG : BroadcastConfig Token.
Local Abbreviation TO := TO_NETWORKING_BROADCAST_CONFIG.

(** What a call of the facade comes to, by the answer of the bus. *)
Lemma facade_call_outcome (self : FacadeT) (query : Query) (history : History) :
  facade_call TO self query history =
  (match answer (Facade.event_bus self) history (request_of query) TO with
   | Returned response =>
       match error response with
       | Some e => Raised e
       | None =>
           if ResponseType_eqb (response_type response)
                (expected_response_type (request_of (Token := Token) query))
           then Returned (payload response)
           else Raised (AttributeError
                          (payload_field
                             (expected_response_type (request_of (Token := Token) query))))
       end
   | Raised e => Raised e
   | Pending => Pending
   end,
   history ++ [request_call (request_of query) TO]).
Proof.
  destruct query; cbn [facade_call request_of expected_response_type payload_field];
    [ unfold Facade.coro_get_block_header_by_hash
    | unfold Facade.coro_get_block_body_by_hash
    | unfold Facade.coro_get_receipts
    | unfold Facade.coro_get_account
    | unfold Facade.coro_get_contract_code ];
    cbn; unfold coro_bind, request;
    match goal with |- context [answer ?b ?h ?i ?c] => destruct (answer b h i c) as [response| |] end;
    try reflexivity;
    unfold Facade._pass_or_raise;
    destruct response as [v [e|]|v [e|]|v [e|]|v [e|]|v [e|]]; reflexivity.
Qed.

Lemma ResponseType_eqb_neq (a b : ResponseType) : a <> b -> ResponseType_eqb a b = false.
Proof. destruct a, b; cbn; congruence. Qed.

(** X1: when the response that the bus correlates has its error set, the
    call of the facade raises that error, whatever else the response is: it
    may carry a payload as well, or be of a class that is not bound to the
    request.  The payload is not read. *)
Theorem facade_error_takes_precedence
  (self : FacadeT) (query : Query) (history : History) (response : Response) (e : Exception) :
  answer (Facade.event_bus self) history (request_of query) TO = Returned response ->
  error response = Some e ->
  facade_call TO self query history =
  (Raised e, history ++ [request_call (request_of query) TO]).
Proof.
  intros Hanswer Herror. now rewrite facade_call_outcome, Hanswer, Herror.
Qed.

(** X2: the facade does not check the class of the response.  A response
    without error of a class other than the bound one makes the call raise
    the [AttributeError] of the field that the method reads; no payload of
    the foreign class is returned. *)
Theorem facade_foreign_response_raises
  (self : FacadeT) (query : Query) (history : History) (response : Response) :
  answer (Facade.event_bus self) history (request_of query) TO = Returned response ->
  error response = None ->
  response_type response <> expected_response_type (request_of (Token := Token) query) ->
  facade_call TO self query history =
  (Raised (AttributeError
             (payload_field (expected_response_type (request_of (Token := Token) query)))),
   history ++ [request_call (request_of query) TO]).
Proof.
  intros Hanswer Herror Hcls.
  now rewrite facade_call_outcome, Hanswer, Herror, ResponseType_eqb_neq.
Qed.

(** X3: the facade catches nothing.  When the request primitive of the bus
    itself raises, the call raises the same exception; when the bus never
    resolves the request, the call never returns.  In both cases the one
    request has been sent. *)
Theorem facade_passes_bus_failure
  (self : FacadeT) (query : Query) (history : History) :
  (forall e,
     answer (Facade.event_bus self) history (request_of query) TO = Raised e ->
     facade_call TO self query history =
     (Raised e, history ++ [request_call (request_of query) TO])) /\
  (answer (Facade.event_bus self) history (request_of query) TO = Pending ->
   facade_call TO self query history =
   (Pending, history ++ [request_call (request_of query) TO])).
Proof.
  split; [intros e Hanswer|intros Hanswer]; now rewrite facade_call_outcome, Hanswer.
Qed.

(** X4: calls of the facade in sequence.  When the first call returns, the
    second sends its own request after it, also for the very same query:
    nothing is remembered from one call to the next.  When the first call
    raises, the sequence raises the same and the second request is never
    sent. *)
Theorem facade_calls_in_sequence
  (self : FacadeT) (first second : Query) (history : History) :
  (forall val,
     fst (facade_call TO self first history) = Returned val ->
     (facade_call TO self first ;; facade_call TO self second) history =
     (fst (facade_call TO self second (history ++ [request_call (request_of first) TO])),
      history ++ [request_call (request_of first) TO; request_call (request_of second) TO])) /\
  (forall e,
     fst (facade_call TO self first history) = Raised e ->
     (facade_call TO self first ;; facade_call TO self second) history =
     (Raised e, history ++ [request_call (request_of first) TO])).
Proof.
  split.
  - intros val Hfirst. cbn. unfold coro_bind.
    rewrite (surjective_pairing (facade_call TO self first history)), Hfirst, facade_history.
    rewrite (surjective_pairing (facade_call TO self second _)) at 1.
    now rewrite facade_history, <- app_assoc.
  - intros e Hfirst. cbn. unfold coro_bind.
    now rewrite (surjective_pairing (facade_call TO self first history)), Hfirst, facade_history.
Qed.

Lemma replies_length_le (chain : Chain) (events : list Request) :
  length (replies chain events) <= length events.
Proof.
  induction events as [|event rest IH]; cbn [replies length]; [lia|].
  destruct (provider_call chain (query_of event)); cbn [length]; lia.
Qed.

Lemma replies_length_resolves (chain : Chain) (events : list Request) :
  resolves chain events -> length (replies chain events) = length events.
Proof.
  intros Hres. apply replies_resolves in Hres.
  symmetry. eapply Forall2_length. exact Hres.
Qed.

Lemma replies_stuck (chain : Chain) (before after : list Request) (event : Request) :
  resolves chain before ->
  provider_call chain (query_of event) = Pending ->
  replies chain (before ++ event :: after) = replies chain before /\
  loop_end chain (before ++ event :: after) = Pending.
Proof.
  intros Hres Hpending. split.
  - rewrite replies_app by exact Hres. cbn [replies]. rewrite Hpending. apply app_nil_r.
  - apply loop_end_pending with (event := event); [|exact Hpending].
    apply in_or_app. right. now left.
Qed.

(** X5: within one kind the requests are served one after the other.
    When the provider never resolves the operation for a request, the loop
    of its class stays suspended there: the requests before it are
    answered, and neither it nor any request of the class after it ever
    is. *)
Theorem relay_loop_head_of_line
  (cls : RequestType) (self : RelayT) (history : History)
  (before after : list Request) (event : Request) :
  stream (Relay.event_bus self) cls = before ++ event :: after ->
  resolves (Relay.chain self) before ->
  provider_call (Relay.chain self) (query_of event) = Pending ->
  exists answers_before,
    handler_of cls self history = (Pending, history ++ answers_before) /\
    Forall2 (responds (Relay.chain self)) before answers_before.
Proof.
  intros Hstream Hres Hpending.
  exists (replies (Relay.chain self) before).
  split; [|now apply replies_resolves].
  rewrite handler_run, Hstream.
  destruct (@replies_stuck (Relay.chain self) before after event Hres Hpending) as [-> ->].
  reflexivity.
Qed.

(** X6: a loop takes the requests of its own class only.  A request of
    another class, delivered anywhere among the others, changes nothing of
    what the loop does, whatever the provider would do with it; and a loop
    that is delivered requests of other classes only ends without a
    publication. *)
Theorem relay_loop_ignores_other_classes
  (cls : RequestType) (chain : Chain) (history : History) :
  (forall (before after : list Request) (other : Request),
     request_type other <> cls ->
     handler_of cls (Relay.__init__ chain (relay_ep (before ++ other :: after))) history =
     handler_of cls (Relay.__init__ chain (relay_ep (before ++ after))) history) /\
  (forall delivered : list Request,
     (forall event, In event delivered -> request_type event <> cls) ->
     handler_of cls (Relay.__init__ chain (relay_ep delivered)) history =
     (Returned tt, history)).
Proof.
  split.
  - intros before after other Hother. rewrite !handler_run.
    cbn [Relay.chain Relay.event_bus Relay.__init__].
    unfold stream. cbn [incoming relay_endpoint]. rewrite !filter_app. cbn [filter].
    destruct (RequestType_eqb (request_type other) cls) eqn:Heq; [|reflexivity].
    apply RequestType_eqb_eq in Heq. contradiction.
  - intros delivered Hother. rewrite handler_run.
    cbn [Relay.chain Relay.event_bus Relay.__init__].
    replace (stream (relay_ep delivered) cls) with (@nil Request).
    + cbn. now rewrite app_nil_r.
    + symmetry. unfold stream. cbn [incoming relay_endpoint].
      induction delivered as [|event rest IH]; [reflexivity|]. cbn [filter].
      destruct (RequestType_eqb (request_type event) cls) eqn:Heq.
      * apply RequestType_eqb_eq in Heq. now destruct (Hother event (or_introl eq_refl)).
      * apply IH. intros ev Hin. apply Hother. now right.
Qed.

Lemma stream_partition (delivered : list Request) :
  length (stream (relay_ep delivered) GetBlockHeaderByHashRequest_cls) +
  length (stream (relay_ep delivered) GetBlockBodyByHashRequest_cls) +
  length (stream (relay_ep delivered) GetReceiptsRequest_cls) +
  length (stream (relay_ep delivered) GetAccountRequest_cls) +
  length (stream (relay_ep delivered) GetContractCodeRequest_cls) =
  length delivered.
Proof.
  unfold stream. cbn [incoming relay_endpoint].
  induction delivered as [|event rest IH]; [reflexivity|].
  destruct event; cbn [filter request_type RequestType_eqb length]; lia.
Qed.

Lemma resolves_stream (chain : Chain) (delivered : list Request) (cls : RequestType) :
  resolves chain delivered -> resolves chain (stream (relay_ep delivered) cls).
Proof.
  intros Hres event Hin. apply stream_class in Hin. apply Hres. exact (proj1 Hin).
Qed.

Lemma replies_answered (chain : Chain) (events : list Request) :
  exists answered rest,
    events = answered ++ rest /\
    Forall2 (responds chain) answered (replies chain events) /\
    (resolves chain events -> rest = []).
Proof.
  destruct (replies_prefix chain events) as (answered & rest & Heq & Hall).
  exists answered, rest. split; [exact Heq|]. split; [exact Hall|].
  intros Hres. apply replies_length_resolves in Hres.
  apply Forall2_length in Hall. rewrite Hres, Heq, length_app in Hall.
  destruct rest; [reflexivity|]. cbn [length] in Hall. lia.
Qed.

Lemma stream_permutation (delivered : list Request) :
  Permutation delivered
    (flat_map (fun cls => stream (relay_ep delivered) cls) request_classes).
Proof.
  unfold stream. cbn [incoming relay_endpoint request_classes flat_map].
  induction delivered as [|event rest IH]; [reflexivity|].
  destruct event; cbn [filter request_type RequestType_eqb app];
    repeat rewrite <- Permutation_middle; now apply perm_skip.
Qed.

(** The publications of the loops of some classes answer, one for one, a
    part of the requests of these classes; for each class that part is a
    prefix of its stream. *)
Lemma published_answers (chain : Chain) (delivered : list Request)
  (classes : list RequestType) :
  NoDup classes ->
  exists answered unanswered,
    Permutation (flat_map (fun cls => stream (relay_ep delivered) cls) classes)
      (answered ++ unanswered) /\
    Forall2 (responds chain) answered
      (flat_map (fun cls => replies chain (stream (relay_ep delivered) cls)) classes) /\
    (resolves chain delivered -> unanswered = []) /\
    (forall cls, In cls classes ->
       exists rest,
         stream (relay_ep delivered) cls =
         filter (fun event => RequestType_eqb (request_type event) cls) answered ++ rest) /\
    (forall event, In event answered -> In (request_type event) classes).
Proof.
  induction 1 as [|cls classes Hfresh _ IH].
  - exists [], []. cbn. repeat split; try constructor; contradiction.
  - destruct IH as (answered & unanswered & Hperm & Hall & Hres & Hprefix & Hclasses).
    destruct (replies_answered chain (stream (relay_ep delivered) cls))
      as (first & rest & Hstream & Hfirst & Hrest).
    assert (Hfirst_cls : forall event, In event first -> request_type event = cls).
    { intros event Hin.
      assert (Hin' : In event (stream (relay_ep delivered) cls))
        by (rewrite Hstream; apply in_or_app; now left).
      apply stream_class in Hin'. exact (proj2 Hin'). }
    exists (first ++ answered), (rest ++ unanswered). cbn [flat_map].
    split; [|split; [|split; [|split]]].
    + rewrite Hstream, Hperm, <- !app_assoc. apply Permutation_app_head.
      rewrite !app_assoc. apply Permutation_app_tail. apply Permutation_app_comm.
    + now apply Forall2_app.
    + intros Hall_res. rewrite (Hres Hall_res), Hrest; [reflexivity|].
      now apply resolves_stream.
    + intros cls' [<-|Hin].
      * exists rest. rewrite filter_app.
        rewrite (filter_all _ first)
          by (intros event Hev; apply RequestType_eqb_eq; now apply Hfirst_cls).
        rewrite (filter_none _ answered); [now rewrite app_nil_r|].
        intros event Hev.
        destruct (RequestType_eqb (request_type event) cls) eqn:Heq; [|reflexivity].
        apply RequestType_eqb_eq in Heq. apply Hclasses in Hev. congruence.
      * destruct (Hprefix cls' Hin) as (rest' & Hrest'). exists rest'.
        rewrite filter_app, (filter_none _ first); [exact Hrest'|].
        intros event Hev.
        destruct (RequestType_eqb (request_type event) cls') eqn:Heq; [|reflexivity].
        apply RequestType_eqb_eq in Heq. apply Hfirst_cls in Hev. congruence.
    + intros event Hin. apply in_app_or in Hin. destruct Hin as [Hin|Hin].
      * left. symmetry. now apply Hfirst_cls.
      * right. now apply Hclasses.
Qed.

(** X7: the five loops share the delivered requests without overlap.  The
    publications of a started relay answer, one for one, requests that
    were delivered, no request twice; within each class the answered
    requests are the first of the stream, and when the provider resolves
    every request none is left unanswered.  So the relay publishes at
    most one response for each request, exactly as many responses as
    requests when the provider resolves them all; and it calls no other
    primitive of the bus. *)
Theorem relay_answers_each_request_once (chain : Chain) (delivered : list Request) :
  (exists answered unanswered,
     Permutation delivered (answered ++ unanswered) /\
     Forall2 (responds chain) answered (relay_published chain delivered) /\
     (resolves chain delivered -> unanswered = []) /\
     (forall cls : RequestType,
        exists rest,
          stream (relay_ep delivered) cls =
          filter (fun event => RequestType_eqb (request_type event) cls) answered ++ rest)) /\
  length (relay_published chain delivered) <= length delivered /\
  (resolves chain delivered ->
   length (relay_published chain delivered) = length delivered) /\
  (forall call, In call (relay_published chain delivered) ->
     exists item config, call = broadcast_call item config).
Proof.
  split.
  - destruct (@published_answers chain delivered request_classes (request_classes_NoDup))
      as (answered & unanswered & Hperm & Hall & Hres & Hprefix & _).
    exists answered, unanswered. rewrite relay_published_eq.
    split; [|split; [exact Hall|split; [exact Hres|]]].
    + rewrite <- Hperm. apply stream_permutation.
    + intros cls. apply Hprefix. apply request_classes_complete.
  - rewrite relay_published_eq. cbn [request_classes flat_map].
    pose proof (stream_partition delivered) as Hpartition.
    split; [|split].
    + rewrite app_nil_r, !length_app.
      pose proof (replies_length_le chain (stream (relay_ep delivered) GetBlockHeaderByHashRequest_cls)).
      pose proof (replies_length_le chain (stream (relay_ep delivered) GetBlockBodyByHashRequest_cls)).
      pose proof (replies_length_le chain (stream (relay_ep delivered) GetReceiptsRequest_cls)).
      pose proof (replies_length_le chain (stream (relay_ep delivered) GetAccountRequest_cls)).
      pose proof (replies_length_le chain (stream (relay_ep delivered) GetContractCodeRequest_cls)).
      lia.
    + intros Hres. rewrite app_nil_r, !length_app.
      rewrite !replies_length_resolves by (apply resolves_stream; exact Hres). lia.
    + intros call Hin.
      assert (Hin' : In call (relay_published chain delivered))
        by (rewrite relay_published_eq; exact Hin).
      apply relay_published_In in Hin'.
      destruct Hin' as (event & _ & val & err & _ & ->). eexists. eexists. reflexivity.
Qed.

(** C7: starting the relay starts exactly one consume-dispatch-respond task
    for each kind of query.  [_run] adds five tasks to the service, one for
    each request class in the order header, body, receipts, account,
    contract code; the task of a class is the loop that consumes the
    stream of that class and publishes the answers to its requests.  A
    relay that was just made runs exactly these five tasks: a request that
    is delivered to it is answered by the task of its class, once, and the
    four other tasks publish nothing; the started relay publishes one
    response for each delivered request that the provider resolves.
    Stopping the relay stops all five: they stay the tasks of the service,
    none of them runs any more, and nothing more is consumed or
    published. *)
Theorem C7_one_task_per_kind (self : RelayT) :
  (exists started,
     _tasks (Relay.service (Relay._run self)) = _tasks (Relay.service self) ++ started /\
     Forall2
       (fun task cls =>
          forall history : History,
            task history =
            (loop_end (Relay.chain self) (stream (Relay.event_bus self) cls),
             history ++ replies (Relay.chain self) (stream (Relay.event_bus self) cls)))
       started request_classes) /\
  _tasks (Relay.service (Relay._run self)) =
    _tasks (Relay.service self) ++ map (fun cls => handler_of cls self) request_classes /\
  NoDup request_classes /\
  (forall cls : RequestType, In cls request_classes) /\
  length request_classes = 5 /\
  (forall (chain : Chain) (event_bus : Endpoint),
     running_tasks (Relay.service (Relay._run (Relay.__init__ chain event_bus))) =
     map (fun cls => handler_of cls (Relay.__init__ chain event_bus)) request_classes) /\
  (forall (chain : Chain) (event : Request) (val : option PyObj) (err : option Exception),
     carries (provider_call chain (query_of event)) val err ->
     map (fun task => task [])
       (running_tasks
          (Relay.service (Relay._run (Relay.__init__ chain (relay_ep [event]))))) =
     map (fun cls =>
            (Returned tt,
             if RequestType_eqb (request_type event) cls
             then [broadcast_call (call_cls (expected_response_type event) val err)
                     (broadcast_config event)]
             else []))
       request_classes) /\
  (forall (chain : Chain) (delivered : list Request) (history : History),
     resolves chain delivered ->
     length (schedule
               (Relay.service (Relay._run (Relay.__init__ chain (relay_ep delivered))))
               history) =
     length history + length delivered) /\
  _tasks (Relay.service (Relay.stop (Relay._run self))) =
    _tasks (Relay.service (Relay._run self)) /\
  running_tasks (Relay.service (Relay.stop (Relay._run self))) = [] /\
  (forall history : History,
     schedule (Relay.service (Relay.stop (Relay._run self))) history = history).
Proof.
  assert (Hrunning : forall (chain : Chain) (event_bus : Endpoint),
    running_tasks (Relay.service (Relay._run (Relay.__init__ chain event_bus))) =
    map (fun cls => handler_of cls (Relay.__init__ chain event_bus)) request_classes).
  { intros chain event_bus. unfold running_tasks.
    rewrite run_is_cancelled, run_tasks. reflexivity. }
  split.
  { exists (map (fun cls => handler_of cls self) request_classes).
    split; [apply run_tasks|].
    unfold request_classes. cbn [map].
    repeat (constructor; [intros history; apply handler_run|]). constructor. }
  split; [apply run_tasks|].
  split; [apply request_classes_NoDup|].
  split; [apply request_classes_complete|].
  split; [reflexivity|].
  split; [exact Hrunning|].
  split.
  { intros chain event val err Hcarries. rewrite Hrunning, map_map.
    apply map_ext. intros cls. rewrite handler_run.
    cbn [Relay.chain Relay.event_bus Relay.__init__].
    unfold stream. cbn [incoming relay_endpoint filter].
    destruct (RequestType_eqb (request_type event) cls); [|reflexivity].
    cbn [loop_end replies]. inversion Hcarries; reflexivity. }
  split.
  { intros chain delivered history Hres. rewrite schedule_run, length_app.
    f_equal. cbn [request_classes flat_map].
    rewrite app_nil_r, !length_app.
    rewrite !replies_length_resolves by (apply resolves_stream; exact Hres).
    pose proof (stream_partition delivered). lia. }
  split; [reflexivity|]. split; reflexivity.
Qed.

End BridgeMore.

(** ** The configuration of the state fixtures *)

Lemma prefix_refl (s : string) : String.prefix s s = true.
Proof.
  induction s as [|a s IH]; [reflexivity|].
  cbn. destruct (Ascii.ascii_dec a a); [exact IH|contradiction].
Qed.

Lemma str_in_refl (s : string) : str_in s s = true.
Proof. destruct s; cbn [str_in]; now rewrite prefix_refl. Qed.

Section DictFacts.

Variable V : Type.

Lemma dict_get_setitem (key key' : string) (value : V) (d : PyDict V) :
  dict_get key (dict_setitem key' value d) =
  if String.eqb key' key then Some value else dict_get key d.
Proof.
  induction d as [|[k v] rest IH]; cbn [dict_setitem dict_get].
  - reflexivity.
  - destruct (String.eqb_spec k key') as [->|Hne]; cbn [dict_get].
    + now destruct (String.eqb key' key).
    + destruct (String.eqb_spec k key) as [->|Hne']; [|exact IH].
      destruct (String.eqb_spec key' key); [congruence|reflexivity].
Qed.

Lemma dict_get_filter (keep : string -> bool) (key : string) (d : PyDict V) :
  dict_get key (filter (fun entry => keep (fst entry)) d) =
  if keep key then dict_get key d else None.
Proof.
  induction d as [|[k v] rest IH]; cbn [filter dict_get fst].
  - now destruct (keep key).
  - destruct (keep k) eqn:Hkeep; cbn [dict_get].
    + destruct (String.eqb_spec k key) as [->|Hne]; [now rewrite Hkeep|exact IH].
    + destruct (String.eqb_spec k key) as [->|Hne]; [now rewrite IH, Hkeep|exact IH].
Qed.

Lemma dict_get_None (key : string) (d : PyDict V) :
  dict_get key d = None <-> ~ In key (dict_keys d).
Proof.
  induction d as [|[k v] rest IH]; cbn [dict_get dict_keys map fst In]; [tauto|].
  destruct (String.eqb_spec k key) as [->|Hne].
  - split; [discriminate|]. intros Hnot. exfalso. apply Hnot. now left.
  - fold (dict_keys rest). rewrite IH. tauto.
Qed.

Lemma dict_keys_filter (keep : string -> bool) (d : PyDict V) :
  dict_keys (filter (fun entry => keep (fst entry)) d) = filter keep (dict_keys d).
Proof.
  unfold dict_keys. induction d as [|[k v] rest IH]; [reflexivity|].
  cbn [filter map fst]. destruct (keep k); cbn [map fst]; now rewrite IH.
Qed.

Lemma well_formed_filter (keep : string -> bool) (d : PyDict V) :
  well_formed d -> well_formed (filter (fun entry => keep (fst entry)) d).
Proof.
  unfold well_formed. rewrite dict_keys_filter. apply NoDup_filter.
Qed.

Lemma dict_keys_setitem (key : string) (value : V) (d : PyDict V) :
  dict_keys (dict_setitem key value d) =
  if in_dec string_dec key (dict_keys d) then dict_keys d else dict_keys d ++ [key].
Proof.
  unfold dict_keys. induction d as [|[k v] rest IH]; cbn [dict_setitem map fst].
  - now destruct (in_dec string_dec key []).
  - destruct (String.eqb_spec k key) as [->|Hne]; cbn [map fst].
    + destruct (in_dec string_dec key (key :: map fst rest)) as [|Hnot]; [reflexivity|].
      exfalso. apply Hnot. now left.
    + rewrite IH.
      destruct (in_dec string_dec key (map fst rest)) as [Hin|Hnot];
        destruct (in_dec string_dec key (k :: map fst rest)) as [Hin'|Hnot'];
        try reflexivity.
      * exfalso. apply Hnot'. now right.
      * destruct Hin' as [Heq|Hin']; [congruence|contradiction].
Qed.

Lemma well_formed_setitem (key : string) (value : V) (d : PyDict V) :
  well_formed d -> well_formed (dict_setitem key value d).
Proof.
  unfold well_formed. rewrite dict_keys_setitem.
  destruct (in_dec string_dec key (dict_keys d)) as [Hin|Hnot]; [auto|].
  intros Hd. apply NoDup_app; [exact Hd|repeat constructor; intros []|].
  intros k Hk [<-|[]]. contradiction.
Qed.

Lemma dict_pop_filter (key : string) (d : PyDict V) :
  well_formed d ->
  dict_pop key d = filter (fun entry => negb (String.eqb (fst entry) key)) d.
Proof.
  unfold well_formed, dict_keys.
  induction d as [|[k v] rest IH]; intros Hd; [reflexivity|].
  cbn [map fst] in Hd. inversion Hd as [|? ? Hfresh Hrest]; subst.
  cbn [dict_pop filter fst].
  destruct (String.eqb_spec k key) as [->|Hne]; cbn [negb].
  - symmetry. apply filter_all. intros [k' v'] Hin. cbn [fst].
    destruct (String.eqb_spec k' key) as [->|]; [|reflexivity].
    exfalso. apply Hfresh. apply in_map_iff. now exists (key, v').
  - now rewrite IH.
Qed.

End DictFacts.

Lemma filter_twice {A : Type} (first second both : A -> bool) (l : list A) :
  (forall x, In x l -> first x && second x = both x) ->
  filter second (filter first l) = filter both l.
Proof.
  induction l as [|x rest IH]; intros Hboth; [reflexivity|].
  assert (Hrest : forall y, In y rest -> first y && second y = both y)
    by (intros y Hin; apply Hboth; now right).
  pose proof (Hboth x (or_introl eq_refl)) as Hx.
  cbn [filter]. destruct (first x); cbn [filter andb] in *.
  - rewrite Hx. destruct (both x); now rewrite IH.
  - rewrite <- Hx. now apply IH.
Qed.

Lemma dict_setitem_same {V : Type} (key : string) (value : V) (d : PyDict V) :
  dict_get key d = Some value -> dict_setitem key value d = d.
Proof.
  induction d as [|[k v] rest IH]; cbn [dict_get dict_setitem]; [discriminate|].
  destruct (String.eqb k key); [congruence|]. intros Hget. now rewrite IH.
Qed.

Section FixtureFacts.

Variable Value : Type.
Variable of_bytes : bytes -> Value.
Variable Config : Type.
Variable Eth2Config : PyDict Value -> Outcome Config.

Local Abbreviation zero_address := (of_bytes (repeat Byte.x00 20)).
Local Abbreviation generate := (generate_config_by_dict of_bytes Eth2Config).

(** The loop that pops the keys which pass a test removes exactly the
    entries whose key is among those visited and passes the test. *)
Lemma pop_loop (test : string -> bool) (keys : list string) (d : PyDict Value) :
  well_formed d ->
  fold_left (fun d key => if test key then dict_pop key d else d) keys d =
  filter (fun entry =>
            negb (test (fst entry) && existsb (String.eqb (fst entry)) keys)) d.
Proof.
  revert d. induction keys as [|key rest IH]; intros d Hd; cbn [fold_left].
  - symmetry. apply filter_all. intros entry _. cbn [existsb].
    now rewrite andb_false_r.
  - destruct (test key) eqn:Htest.
    + rewrite dict_pop_filter by exact Hd.
      rewrite IH by (apply (well_formed_filter (fun k => negb (String.eqb k key))); exact Hd).
      apply filter_twice. intros entry _. cbn [existsb].
      destruct (String.eqb_spec (fst entry) key) as [->|Hne]; cbn [negb andb orb].
      * now rewrite Htest.
      * reflexivity.
    + rewrite IH by exact Hd. apply filter_ext. intros entry. cbn [existsb].
      destruct (String.eqb_spec (fst entry) key) as [->|Hne]; cbn [orb]; [|reflexivity].
      now rewrite Htest.
Qed.

Lemma is_domain_key_str_in (key : string) :
  is_domain_key key = str_in "DOMAIN_" key.
Proof. unfold is_domain_key. now rewrite str_in_refl, andb_true_r. Qed.

(** The dictionary that the call leaves: the deposit contract address is
    set, then the entries with a domain key are gone. *)
Lemma generate_config_dict (dict_config : PyDict Value) :
  well_formed dict_config ->
  snd (generate dict_config) =
  filter (fun entry => negb (str_in "DOMAIN_" (fst entry)))
    (dict_setitem "DEPOSIT_CONTRACT_ADDRESS" zero_address dict_config).
Proof.
  intros Hd. unfold generate_config_by_dict. cbn [snd].
  rewrite pop_loop by (apply well_formed_setitem; exact Hd).
  apply filter_ext_in. intros entry Hin.
  replace (existsb (String.eqb (fst entry)) _) with true.
  - now rewrite andb_true_r, is_domain_key_str_in.
  - symmetry. apply existsb_exists. exists (fst entry).
    split; [apply in_map; exact Hin|apply String.eqb_refl].
Qed.

Lemma generate_config_deposit (dict_config : PyDict Value) :
  well_formed dict_config ->
  dict_get "DEPOSIT_CONTRACT_ADDRESS" (snd (generate dict_config)) = Some zero_address.
Proof.
  intros Hd. rewrite generate_config_dict by exact Hd.
  rewrite (dict_get_filter (fun k => negb (str_in "DOMAIN_" k))).
  now rewrite dict_get_setitem.
Qed.

(** X8: the test ['DOMAIN_' in key in key] holds exactly when
    ['DOMAIN_' in key] does: its second link, [key in key], holds of every
    string, the empty one included. *)
Theorem domain_test_second_link_redundant :
  (forall key : string, str_in key key = true) /\
  (forall key : string, is_domain_key key = str_in "DOMAIN_" key).
Proof. split; [apply str_in_refl|apply is_domain_key_str_in]. Qed.

(** X9: no key that contains [DOMAIN_], at any place, is left in the
    dictionary, so none is passed to [Eth2Config]. *)
Theorem generate_config_drops_domain_keys (dict_config : PyDict Value) (key : string) :
  well_formed dict_config ->
  str_in "DOMAIN_" key = true ->
  ~ In key (dict_keys (snd (generate dict_config))) /\
  dict_get key (snd (generate dict_config)) = None.
Proof.
  intros Hd Hkey.
  assert (Hget : dict_get key (snd (generate dict_config)) = None).
  { rewrite generate_config_dict by exact Hd.
    rewrite (dict_get_filter (fun k => negb (str_in "DOMAIN_" k))). now rewrite Hkey. }
  split; [now apply dict_get_None|exact Hget].
Qed.

(** X10: the deposit contract address that is passed to [Eth2Config] is
    twenty zero bytes, whether the dictionary had an address of its own or
    none. *)
Theorem generate_config_sets_deposit_address (dict_config : PyDict Value) :
  well_formed dict_config ->
  dict_get "DEPOSIT_CONTRACT_ADDRESS" (snd (generate dict_config)) = Some zero_address.
Proof.
  intros Hd. rewrite generate_config_dict by exact Hd.
  rewrite (dict_get_filter (fun k => negb (str_in "DOMAIN_" k))).
  cbn [negb]. rewrite dict_get_setitem.
  now rewrite String.eqb_refl.
Qed.

(** X11: every other entry whose key does not contain [DOMAIN_] is passed
    on with the value it had, the keys stay in their order with a new
    deposit contract address at the end, each key once, and the value
    returned is [Eth2Config] of the dictionary so left. *)
Theorem generate_config_keeps_other_entries (dict_config : PyDict Value) :
  well_formed dict_config ->
  (forall key,
     key <> "DEPOSIT_CONTRACT_ADDRESS"%string ->
     str_in "DOMAIN_" key = false ->
     dict_get key (snd (generate dict_config)) = dict_get key dict_config) /\
  dict_keys (snd (generate dict_config)) =
    filter (fun k => negb (str_in "DOMAIN_" k))
      (if in_dec string_dec "DEPOSIT_CONTRACT_ADDRESS"%string (dict_keys dict_config)
       then dict_keys dict_config
       else dict_keys dict_config ++ ["DEPOSIT_CONTRACT_ADDRESS"%string]) /\
  well_formed (snd (generate dict_config)) /\
  fst (generate dict_config) = Eth2Config (snd (generate dict_config)).
Proof.
  intros Hd.
  assert (Hfst : fst (generate dict_config) = Eth2Config (snd (generate dict_config)))
    by reflexivity.
  revert Hfst. rewrite generate_config_dict by exact Hd. intros Hfst.
  split; [|split; [|split]].
  - intros key Hkey Hdomain.
    rewrite (dict_get_filter (fun k => negb (str_in "DOMAIN_" k))), Hdomain. cbn [negb].
    rewrite dict_get_setitem.
    destruct (String.eqb_spec "DEPOSIT_CONTRACT_ADDRESS" key); [congruence|reflexivity].
  - rewrite (dict_keys_filter (fun k => negb (str_in "DOMAIN_" k))).
    now rewrite dict_keys_setitem.
  - apply (well_formed_filter (fun k => negb (str_in "DOMAIN_" k))).
    now apply well_formed_setitem.
  - exact Hfst.
Qed.

(** X12: a second call on the dictionary that a first call has left
    changes it no more and returns what the first call returned. *)
Theorem generate_config_idempotent (dict_config : PyDict Value) :
  well_formed dict_config ->
  snd (generate (snd (generate dict_config))) = snd (generate dict_config) /\
  fst (generate (snd (generate dict_config))) = fst (generate dict_config).
Proof.
  intros Hd.
  assert (Hwf : well_formed (snd (generate dict_config))).
  { rewrite generate_config_dict by exact Hd.
    apply (well_formed_filter (fun k => negb (str_in "DOMAIN_" k))).
    now apply well_formed_setitem. }
  assert (Hsnd : snd (generate (snd (generate dict_config))) = snd (generate dict_config)).
  { rewrite (generate_config_dict Hwf).
    rewrite dict_setitem_same by (apply generate_config_deposit; exact Hd).
    rewrite generate_config_dict by exact Hd.
    apply filter_all. intros entry Hin. apply filter_In in Hin. exact (proj2 Hin). }
  split; [exact Hsnd|].
  change (Eth2Config (snd (generate (snd (generate dict_config)))) =
          Eth2Config (snd (generate dict_config))).
  now rewrite Hsnd.
Qed.

End FixtureFacts.

(** ** The scenario, run further *)

Lemma facade_error_takes_precedence_witness :
  error (BlockBodyResponse (Some (obj_BlockBody (BlockHeader := string) (Receipt := string)
                                    (Account := string) "B"%string))
           (Some (Failure "not found"))) = Some (Failure "not found") /\
  facade_call scenario_networking
    (Facade.__init__
       (scenario_answering
          (Returned (BlockBodyResponse (Some (obj_BlockBody "B"%string))
                       (Some (Failure "not found"))))))
    (GetBlockHeaderByHash hash_AA) [] =
  (Raised (Failure "not found"),
   [request_call (GetBlockHeaderByHashRequest hash_AA None) scenario_networking]).
Proof.
  split; [reflexivity|].
  apply (@facade_error_takes_precedence string string string string nat scenario_networking
           (Facade.__init__
              (scenario_answering
                 (Returned (BlockBodyResponse (Some (obj_BlockBody "B"%string))
                              (Some (Failure "not found"))))))
           (GetBlockHeaderByHash hash_AA) []
           (BlockBodyResponse (Some (obj_BlockBody "B"%string)) (Some (Failure "not found")))
           (Failure "not found")); reflexivity.
Defined.

Lemma facade_foreign_response_raises_witness :
  response_type (BlockBodyResponse (Some (obj_BlockBody (BlockHeader := string)
                                            (Receipt := string) (Account := string)
                                            "B"%string)) None)
    <> expected_response_type (GetBlockHeaderByHashRequest hash_AA (@None nat)) /\
  facade_call scenario_networking
    (Facade.__init__
       (scenario_answering
          (Returned (BlockBodyResponse (Some (obj_BlockBody "B"%string)) None))))
    (GetBlockHeaderByHash hash_AA) [] =
  (Raised (AttributeError "block_header"),
   [request_call (GetBlockHeaderByHashRequest hash_AA None) scenario_networking]).
Proof.
  split; [discriminate|].
  apply (@facade_foreign_response_raises string string string string nat scenario_networking
           (Facade.__init__
              (scenario_answering
                 (Returned (BlockBodyResponse (Some (obj_BlockBody "B"%string)) None))))
           (GetBlockHeaderByHash hash_AA) []
           (BlockBodyResponse (Some (obj_BlockBody "B"%string)) None));
    [reflexivity|reflexivity|discriminate].
Defined.

Lemma facade_passes_bus_failure_witness :
  facade_call scenario_networking
    (Facade.__init__ (scenario_answering (Raised UnexpectedResponse)))
    (GetReceipts hash_AA) [] =
  (Raised UnexpectedResponse,
   [request_call (GetReceiptsRequest hash_AA None) scenario_networking]) /\
  facade_call scenario_networking
    (Facade.__init__ (scenario_answering Pending))
    (GetReceipts hash_AA) [] =
  (Pending, [request_call (GetReceiptsRequest hash_AA None) scenario_networking]).
Proof.
  split.
  - apply (proj1 (@facade_passes_bus_failure string string string string nat
                    scenario_networking
                    (Facade.__init__ (scenario_answering (Raised UnexpectedResponse)))
                    (GetReceipts hash_AA) [])).
    reflexivity.
  - apply (proj2 (@facade_passes_bus_failure string string string string nat
                    scenario_networking
                    (Facade.__init__ (scenario_answering Pending))
                    (GetReceipts hash_AA) [])).
    reflexivity.
Defined.

Lemma facade_calls_in_sequence_witness :
  (facade_call scenario_networking scenario_facade (GetBlockHeaderByHash hash_AA) ;;
   facade_call scenario_networking scenario_facade (GetBlockHeaderByHash hash_AA)) [] =
  (fst (facade_call scenario_networking scenario_facade (GetBlockHeaderByHash hash_AA)
          ([] ++ [request_call (GetBlockHeaderByHashRequest hash_AA None) scenario_networking])),
   [] ++ [request_call (GetBlockHeaderByHashRequest hash_AA None) scenario_networking;
          request_call (GetBlockHeaderByHashRequest hash_AA None) scenario_networking]) /\
  (facade_call scenario_networking scenario_facade (GetBlockHeaderByHash hash_BB) ;;
   facade_call scenario_networking scenario_facade (GetBlockHeaderByHash hash_AA)) [] =
  (Raised (Failure "not found"),
   [] ++ [request_call (GetBlockHeaderByHashRequest hash_BB None) scenario_networking]).
Proof.
  split.
  - apply (proj1 (@facade_calls_in_sequence string string string string nat
                    scenario_networking scenario_facade
                    (GetBlockHeaderByHash hash_AA) (GetBlockHeaderByHash hash_AA) [])
             (Some (obj_BlockHeader "H"%string))).
    vm_compute. reflexivity.
  - apply (proj2 (@facade_calls_in_sequence string string string string nat
                    scenario_networking scenario_facade
                    (GetBlockHeaderByHash hash_BB) (GetBlockHeaderByHash hash_AA) [])
             (Failure "not found")).
    vm_compute. reflexivity.
Defined.

Lemma relay_loop_head_of_line_witness :
  resolves scenario_stalling_chain [GetBlockHeaderByHashRequest hash_AA (Some 3)] /\
  provider_call scenario_stalling_chain
    (query_of (GetBlockHeaderByHashRequest hash_BB (Some 4))) = Pending /\
  exists answers_before,
    handler_of GetBlockHeaderByHashRequest_cls
      (Relay.__init__ scenario_stalling_chain (Relay.event_bus scenario_relay)) [] =
    (Pending, [] ++ answers_before) /\
    Forall2 (responds scenario_stalling_chain)
      [GetBlockHeaderByHashRequest hash_AA (Some 3)] answers_before.
Proof.
  assert (Hres : resolves scenario_stalling_chain
                   [GetBlockHeaderByHashRequest hash_AA (Some 3)])
    by (intros ev [<-|[]]; vm_compute; discriminate).
  split; [exact Hres|]. split; [vm_compute; reflexivity|].
  apply (@relay_loop_head_of_line string string string string nat
           GetBlockHeaderByHashRequest_cls
           (Relay.__init__ scenario_stalling_chain (Relay.event_bus scenario_relay)) []
           [GetBlockHeaderByHashRequest hash_AA (Some 3)]
           [GetBlockHeaderByHashRequest hash_AA (Some 6)]
           (GetBlockHeaderByHashRequest hash_BB (Some 4))).
  - vm_compute. reflexivity.
  - exact Hres.
  - vm_compute. reflexivity.
Defined.

Lemma relay_loop_ignores_other_classes_witness :
  request_type (GetAccountRequest hash_AA some_address (Some 1))
    <> GetBlockHeaderByHashRequest_cls /\
  handler_of GetBlockHeaderByHashRequest_cls
    (Relay.__init__ scenario_chain
       (relay_endpoint
          ([GetBlockHeaderByHashRequest hash_AA (Some 3)] ++
           GetAccountRequest hash_AA some_address (Some 1)
             :: [GetBlockHeaderByHashRequest hash_BB (Some 4)]))) [] =
  handler_of GetBlockHeaderByHashRequest_cls
    (Relay.__init__ scenario_chain
       (relay_endpoint
          ([GetBlockHeaderByHashRequest hash_AA (Some 3)] ++
           [GetBlockHeaderByHashRequest hash_BB (Some 4)]))) [] /\
  handler_of GetBlockHeaderByHashRequest_cls
    (Relay.__init__ scenario_chain
       (relay_endpoint [GetAccountRequest hash_AA some_address (Some 1)])) [] =
  (Returned tt, []).
Proof.
  split; [discriminate|]. split.
  - apply (proj1 (@relay_loop_ignores_other_classes string string string string nat
                    GetBlockHeaderByHashRequest_cls scenario_chain [])).
    discriminate.
  - apply (proj2 (@relay_loop_ignores_other_classes string string string string nat
                    GetBlockHeaderByHashRequest_cls scenario_chain [])).
    intros event [<-|[]]. discriminate.
Defined.

Lemma relay_answers_each_request_once_witness :
  resolves scenario_chain (incoming (Relay.event_bus scenario_relay)) /\
  (exists answered,
     Permutation (incoming (Relay.event_bus scenario_relay)) answered /\
     Forall2 (responds scenario_chain) answered
       (relay_published scenario_chain (incoming (Relay.event_bus scenario_relay)))) /\
  length (relay_published scenario_chain (incoming (Relay.event_bus scenario_relay))) =
  length (incoming (Relay.event_bus scenario_relay)).
Proof.
  assert (Hres : resolves scenario_chain (incoming (Relay.event_bus scenario_relay)))
    by (intros ev [<-|[<-|[<-|[<-|[]]]]]; vm_compute; discriminate).
  split; [exact Hres|]. split.
  - destruct (proj1 (@relay_answers_each_request_once string string string string nat
                       scenario_chain (incoming (Relay.event_bus scenario_relay))))
      as (answered & unanswered & Hperm & Hall & Hnone & _).
    exists answered. rewrite (Hnone Hres), app_nil_r in Hperm. split; assumption.
  - exact (proj1 (proj2 (proj2 (@relay_answers_each_request_once string string string
                                  string nat scenario_chain
                                  (incoming (Relay.event_bus scenario_relay))))) Hres).
Defined.

Lemma C7_witness :
  carries (provider_call scenario_chain
             (query_of (GetBlockHeaderByHashRequest hash_BB (Some 4))))
    None (Some (Failure "not found")) /\
  map (fun task => task [])
    (running_tasks
       (Relay.service
          (Relay._run
             (Relay.__init__ scenario_chain
                (relay_endpoint [GetBlockHeaderByHashRequest hash_BB (Some 4)]))))) =
  [(Returned tt,
    [broadcast_call (BlockHeaderResponse None (Some (Failure "not found"))) (Some 4)]);
   (Returned tt, []); (Returned tt, []); (Returned tt, []); (Returned tt, [])] /\
  resolves scenario_chain (incoming (Relay.event_bus scenario_relay)) /\
  length (schedule (Relay.service (Relay._run scenario_relay)) []) = 4 /\
  schedule (Relay.service (Relay.stop (Relay._run scenario_relay))) [] = [].
Proof.
  assert (Hcarries :
    carries (provider_call scenario_chain
               (query_of (GetBlockHeaderByHashRequest hash_BB (Some 4))))
      None (Some (Failure "not found")))
    by (vm_compute; constructor).
  assert (Hres : resolves scenario_chain (incoming (Relay.event_bus scenario_relay)))
    by (intros ev [<-|[<-|[<-|[<-|[]]]]]; vm_compute; discriminate).
  pose proof (@C7_one_task_per_kind string string string string nat scenario_relay)
    as (_ & _ & _ & _ & _ & _ & Hone & Hserve & _ & _ & Hstop).
  split; [exact Hcarries|].
  split; [exact (Hone scenario_chain _ _ _ Hcarries)|].
  split; [exact Hres|].
  split; [exact (Hserve scenario_chain _ [] Hres)|].
  apply Hstop.
Defined.

Lemma scenario_config_well_formed : well_formed scenario_config.
Proof.
  unfold well_formed. cbn.
  repeat (constructor; [cbn; intuition discriminate|]). constructor.
Defined.

Lemma generate_config_drops_domain_keys_witness :
  well_formed scenario_config /\
  str_in "DOMAIN_" "MAX_DOMAIN_X" = true /\
  In "MAX_DOMAIN_X"%string (dict_keys scenario_config) /\
  ~ In "MAX_DOMAIN_X"%string
      (dict_keys (snd (generate_config_by_dict (@length Byte.byte) scenario_Eth2Config
                         scenario_config))) /\
  dict_get "MAX_DOMAIN_X"
    (snd (generate_config_by_dict (@length Byte.byte) scenario_Eth2Config scenario_config)) =
  None.
Proof.
  split; [exact scenario_config_well_formed|].
  split; [reflexivity|].
  split; [cbn; tauto|].
  apply (@generate_config_drops_domain_keys nat (@length Byte.byte) (PyDict nat)
           scenario_Eth2Config scenario_config "MAX_DOMAIN_X"%string);
    [exact scenario_config_well_formed|reflexivity].
Defined.

Lemma generate_config_sets_deposit_address_witness :
  well_formed scenario_config /\
  dict_get "DEPOSIT_CONTRACT_ADDRESS" scenario_config = Some 5 /\
  dict_get "DEPOSIT_CONTRACT_ADDRESS"
    (snd (generate_config_by_dict (@length Byte.byte) scenario_Eth2Config scenario_config)) =
  Some 20.
Proof.
  split; [exact scenario_config_well_formed|].
  split; [reflexivity|].
  apply (@generate_config_sets_deposit_address nat (@length Byte.byte) (PyDict nat)
           scenario_Eth2Config scenario_config).
  exact scenario_config_well_formed.
Defined.

Lemma generate_config_keeps_other_entries_witness :
  well_formed scenario_config /\
  str_in "DOMAIN_" "SLOTS_PER_EPOCH" = false /\
  dict_get "SLOTS_PER_EPOCH"
    (snd (generate_config_by_dict (@length Byte.byte) scenario_Eth2Config scenario_config)) =
  dict_get "SLOTS_PER_EPOCH" scenario_config.
Proof.
  split; [exact scenario_config_well_formed|].
  split; [reflexivity|].
  apply (proj1 (@generate_config_keeps_other_entries nat (@length Byte.byte) (PyDict nat)
                  scenario_Eth2Config scenario_config scenario_config_well_formed)).
  - discriminate.
  - reflexivity.
Defined.

Lemma generate_config_idempotent_witness :
  well_formed scenario_config /\
  snd (generate_config_by_dict (@length Byte.byte) scenario_Eth2Config
         (snd (generate_config_by_dict (@length Byte.byte) scenario_Eth2Config
                 scenario_config))) =
  snd (generate_config_by_dict (@length Byte.byte) scenario_Eth2Config scenario_config).
Proof.
  split; [exact scenario_config_well_formed|].
  apply (proj1 (@generate_config_idempotent nat (@length Byte.byte) (PyDict nat)
                  scenario_Eth2Config scenario_config scenario_config_well_formed)).
Defined.
